(** * NetBox ACI plugin: search indexes, form declarations and field validation

    A shallow embedding of the declarative parts of the plugin:
    - [Search]: the six [SearchIndex] classes of [search.py];
    - [Validators]: the naming, alias and description rules of the entities;
    - [Django]: the semantics the host gives to the declared form fields
      ([BooleanField], [ChoiceField], [DynamicModelChoiceField],
      [CharField]) and to the submission of a model form;
    - [Forms]: the model forms of [forms/tenant_networks.py];
    - [Relations]: the relations between the stored objects;
    followed by the properties proved about them. *)

From Stdlib Require Import List String Ascii NArith Bool Arith Lia.
Import ListNotations.
Open Scope string_scope.

(** ** Python strings

    A Python [str] is a sequence of Unicode code points.  ASCII literals are
    written as Rocq strings and converted with [Py.s]. *)
Module Py.

Definition str := list N.

Definition ord (a : ascii) : N := N_of_ascii a.

Definition s (lit : string) : str := map ord (list_ascii_of_string lit).

Definition str_eqb (a b : str) : bool :=
  if list_eq_dec N.eq_dec a b then true else false.

(** [x in xs] on a tuple of Python strings. *)
Definition mem (x : str) (xs : list str) : bool := existsb (str_eqb x) xs.

(** [str.lower()], on the letters A-Z.  No character outside ASCII
    lowers to an ASCII letter of "true" or "false", the only strings that
    lowered values are compared with. *)
Definition lower_char (c : N) : N :=
  if ((65 <=? c) && (c <=? 90))%N then (c + 32)%N else c.

Definition lower (v : str) : str := map lower_char v.

(** [str.isspace()] of one character. *)
Definition isspace (c : N) : bool :=
  ((9 <=? c) && (c <=? 13) || (28 <=? c) && (c <=? 32) ||
   (c =? 133) || (c =? 160) || (c =? 5760) ||
   (8192 <=? c) && (c <=? 8202) || (c =? 8232) || (c =? 8233) ||
   (c =? 8239) || (c =? 8287) || (c =? 12288))%N.

Fixpoint lstrip (v : str) : str :=
  match v with
  | [] => []
  | c :: rest => if isspace c then lstrip rest else v
  end.

(** [str.strip()]. *)
Definition strip (v : str) : str := rev (lstrip (rev (lstrip v))).

Fixpoint parse_digits (acc : N) (v : str) : option N :=
  match v with
  | [] => Some acc
  | c :: rest =>
      if ((48 <=? c) && (c <=? 57))%N
      then parse_digits (acc * 10 + (c - 48))%N rest
      else None
  end.

(** [int(v)] for a primary key written in plain decimal digits.  The
    other spellings that [int] reads (a sign, spaces around the number,
    underscores between digits, digits outside ASCII) are not modelled:
    such a text is taken as no key ([None]). *)
Definition parse_int (v : str) : option N :=
  match v with
  | [] => None
  | _ :: _ => parse_digits 0%N v
  end.


End Py.

(** ** Models

    The six entities of the plugin and the host models that the forms
    import ([tenancy.models], [ipam.models]). *)
Module Models.

Inductive Entity :=
| ACITenant | ACIAppProfile | ACIVRF
| ACIBridgeDomain | ACIBridgeDomainSubnet | ACIEndpointGroup.

Inductive Model :=
| ACI (e : Entity)
| Tenant | TenantGroup | VRF | IPAddress.

Definition Entity_eq_dec (a b : Entity) : {a = b} + {a <> b}.
Proof. decide equality. Defined.

Definition Model_eq_dec (a b : Model) : {a = b} + {a <> b}.
Proof. decide equality. apply Entity_eq_dec. Defined.

Definition Model_eqb (a b : Model) : bool :=
  if Model_eq_dec a b then true else false.

End Models.

(** ** search.py *)
Module Search.
Import Models.

Record SearchIndex := {
  model : Entity;
  fields : list (string * nat);
  display_attrs : list string
}.

Definition ACITenantIndex : SearchIndex := {|
  model := ACITenant;
  fields := [("name", 100); ("name_alias", 300); ("description", 500)];
  display_attrs := ["name"; "name_alias"; "description"; "nb_tenant"]
|}.

Definition ACIAppProfileIndex : SearchIndex := {|
  model := ACIAppProfile;
  fields := [("name", 100); ("name_alias", 300); ("description", 500)];
  display_attrs :=
    ["name"; "name_alias"; "description"; "aci_tenant"; "nb_tenant"]
|}.

Definition ACIVRFIndex : SearchIndex := {|
  model := ACIVRF;
  fields := [("name", 100); ("name_alias", 300); ("description", 500)];
  display_attrs :=
    ["name"; "alias"; "description"; "aci_tenant"; "nb_tenant"; "nb_vrf"]
|}.

Definition ACIBridgeDomainIndex : SearchIndex := {|
  model := ACIBridgeDomain;
  fields := [("name", 100); ("name_alias", 300); ("description", 500)];
  display_attrs :=
    ["name"; "name_alias"; "description"; "aci_vrf"; "nb_tenant"]
|}.

Definition ACIBridgeDomainSubnetIndex : SearchIndex := {|
  model := ACIBridgeDomainSubnet;
  fields := [("name", 100); ("name_alias", 300); ("description", 500)];
  display_attrs :=
    ["name"; "name_alias"; "description"; "aci_bridge_domain";
     "gateway_ip_address"; "nb_tenant"]
|}.

Definition ACIEndpointGroupIndex : SearchIndex := {|
  model := ACIEndpointGroup;
  fields := [("name", 100); ("name_alias", 300); ("description", 500)];
  display_attrs :=
    ["name"; "name_alias"; "description"; "aci_app_profile";
     "aci_bridge_domain"; "nb_tenant"]
|}.

(** The classes decorated with [@register_search], in file order. *)
Definition registry : list SearchIndex :=
  [ACITenantIndex; ACIAppProfileIndex; ACIVRFIndex; ACIBridgeDomainIndex;
   ACIBridgeDomainSubnetIndex; ACIEndpointGroupIndex].

(** Weight of a field in an index; the host ranks a match on a field of
    lower weight above a match on a field of higher weight. *)
Fixpoint weight_of (fs : list (string * nat)) (f : string) : option nat :=
  match fs with
  | [] => None
  | (g, w) :: rest => if String.eqb f g then Some w else weight_of rest f
  end.

Definition ranks_above (idx : SearchIndex) (f g : string) : Prop :=
  exists wf wg,
    weight_of (fields idx) f = Some wf /\
    weight_of (fields idx) g = Some wg /\ wf < wg.

Definition indexed_names (idx : SearchIndex) : list string :=
  map fst (fields idx).

(** Every indexed field name is among the attributes displayed. *)
Definition displays_indexed_fields (idx : SearchIndex) : bool :=
  forallb (fun f => existsb (String.eqb f) (display_attrs idx))
          (indexed_names idx).

End Search.

(** ** Field validation rules

    The rules are attached to the entities in [models/] and [validators.py],
    which are not part of the sources at hand; they are modelled from the
    specification (section 3, column "Invariants", and section 4.1). *)
Module Validators.

Inductive result (A : Type) :=
| Ok (value : A)
| Invalid (message : string).
Arguments Ok {A} value.
Arguments Invalid {A} message.

(** A bracket expression such as [[a-zA-Z0-9_.:-]]: ranges and single
    characters. *)
Inductive class_item :=
| Range (lo hi : ascii)
| Lit (c : ascii).

Definition char_class := list class_item.

Definition item_matches (it : class_item) (c : N) : bool :=
  match it with
  | Range lo hi => (Py.ord lo <=? c)%N && (c <=? Py.ord hi)%N
  | Lit a => (c =? Py.ord a)%N
  end.

Definition class_matches (cls : char_class) (c : N) : bool :=
  existsb (fun it => item_matches it c) cls.

(** Matching of the anchored pattern [^[cls]{lo,hi}$]: consume between [lo]
    and [hi] characters of the class, then require the end of the input. *)
Fixpoint match_repeat (cls : char_class) (lo hi : nat) (input : Py.str)
  {struct input} : bool :=
  match input with
  | [] => Nat.eqb lo 0
  | c :: rest =>
      match hi with
      | 0 => false
      | S hi' => class_matches cls c && match_repeat cls (Nat.pred lo) hi' rest
      end
  end.

Record RegexValidator := {
  regex_class : char_class;
  regex_min : nat;
  regex_max : nat;
  message : string
}.

Definition regex_search (v : RegexValidator) (input : Py.str) : bool :=
  match_repeat (regex_class v) (regex_min v) (regex_max v) input.

(** A text attribute of an entity: its pattern, and whether the empty
    value is allowed (an optional attribute skips the pattern when empty). *)
Record Rule := {
  pattern : RegexValidator;
  optional : bool
}.

Definition validate (r : Rule) (value : Py.str) : result Py.str :=
  match value with
  | [] => if optional r then Ok value
          else Invalid "This field cannot be blank."
  | _ :: _ => if regex_search (pattern r) value then Ok value
              else Invalid (message (pattern r))
  end.

Definition accepts (r : Rule) (value : Py.str) : bool :=
  match validate r value with
  | Ok _ => true
  | Invalid _ => false
  end.

(** Modelled from the spec: the bracket expression of the naming pattern
    [^[a-zA-Z0-9_.:-]{1,64}$] (validators.py is missing). *)
Definition name_class : char_class :=
  [Range "a" "z"; Range "A" "Z"; Range "0" "9";
   Lit "_"; Lit "."; Lit ":"; Lit "-"].

(** Modelled from the spec: the naming pattern, "name matches
    [^[a-zA-Z0-9_.:-]{1,64}$]" (validators.py is missing).  The anchor [$]
    is read as the end of the input. *)
Definition name_pattern : RegexValidator := {|
  regex_class := name_class;
  regex_min := 1;
  regex_max := 64;
  message := "Enter a valid value."
|}.

(** Modelled from the spec: the name attribute of an entity (models/ is
    missing): "Name: non-empty, restricted charset, length <= 64"; the
    other entities follow the "same naming rules" as the Tenant. *)
Definition name_rule (_ : Models.Entity) : Rule :=
  {| pattern := name_pattern; optional := false |}.

(** Modelled from the spec: the alias attribute (models/ is missing):
    "alias matches same pattern or empty". *)
Definition alias_rule (_ : Models.Entity) : Rule :=
  {| pattern := name_pattern; optional := true |}.

Section Description.

(** The allowed characters of a description are not listed by the
    specification; they are a parameter of the model. *)
Variable description_class : char_class.

(** Modelled from the spec: the description attribute (models/ and
    validators.py are missing): "ASCII-restricted charset, optional,
    length <= 256". *)
Definition description_pattern : RegexValidator := {|
  regex_class := description_class;
  regex_min := 1;
  regex_max := 256;
  message := "Enter a valid value."
|}.

(** Modelled from the spec: the description attribute of an entity
    (models/ is missing), optional, with the pattern above. *)
Definition description_rule (_ : Models.Entity) : Rule :=
  {| pattern := description_pattern; optional := true |}.

End Description.


End Validators.

(** ** Host semantics of forms

    What the host framework does with the declarations of a model form:
    how each kind of field cleans a submitted value, and how a form is
    validated and saved.  Submitted data are strings, as a browser sends
    them. *)
Module Django.
Import Models Validators.

Definition QueryDict := list (string * Py.str).

Fixpoint get (data : QueryDict) (key : string) : option Py.str :=
  match data with
  | [] => None
  | (k, v) :: rest => if String.eqb key k then Some v else get rest key
  end.

(** Cleaned values: [None], a string, a boolean, or an object of a
    queryset, identified by its model and primary key. *)
Inductive cleaned :=
| CNone
| CStr (v : Py.str)
| CBool (b : bool)
| CObj (m : Model) (pk : N).

Record Obj := {
  obj_model : Model;
  obj_pk : N;
  attrs : list (string * cleaned)
}.

(** The database: the objects of all models. *)
Definition Store := list Obj.

(** [Model.objects.all()] *)
Definition objects_all (st : Store) (m : Model) : list Obj :=
  filter (fun o => Model_eqb (obj_model o) m) st.

(** [queryset.get(pk=k)] *)
Definition queryset_get (st : Store) (m : Model) (k : N) : option Obj :=
  find (fun o => N.eqb (obj_pk o) k) (objects_all st m).

Fixpoint attr (l : list (string * cleaned)) (key : string) : option cleaned :=
  match l with
  | [] => None
  | (k, v) :: rest => if String.eqb key k then Some v else attr rest key
  end.

Inductive FieldType :=
| CharField (rule : Rule)
| CommentField
| BooleanField
| ChoiceField (choices : list Py.str)
| DynamicModelChoiceField (queryset : Model)
    (query_params initial_params : list (string * string)).

Record Field := {
  name : string;
  ftype : FieldType;
  required : bool;
  label : string;
  help_text : string
}.

Definition required_msg : string := "This field is required.".

Definition invalid_choice_msg : string :=
  "Select a valid choice. That choice is not one of the available choices.".

(** [CheckboxInput.value_from_datadict]: a checkbox that is not checked
    is not part of the submission. *)
Definition CheckboxInput_value (data : QueryDict) (key : string) : bool :=
  match get data key with
  | None => false
  | Some v =>
      if Py.str_eqb (Py.lower v) (Py.s "true") then true
      else if Py.str_eqb (Py.lower v) (Py.s "false") then false
      else negb (Py.str_eqb v [])
  end.

(** Value of a text input or select; a missing key is the empty value. *)
Definition text_value (data : QueryDict) (key : string) : Py.str :=
  match get data key with
  | Some v => v
  | None => []
  end.

Definition as_cleaned (r : result Py.str) : result cleaned :=
  match r with
  | Ok v => Ok (CStr v)
  | Invalid m => Invalid m
  end.

(** [Field.clean] of a bound field, for each kind of field. *)
Definition clean (st : Store) (f : Field) (data : QueryDict)
  : result cleaned :=
  match ftype f with
  | CharField rule =>
      match Py.strip (text_value data (name f)) with
      | [] => if required f then Invalid required_msg
              else as_cleaned (validate rule [])
      | v => as_cleaned (validate rule v)
      end
  | CommentField =>
      match Py.strip (text_value data (name f)) with
      | [] => if required f then Invalid required_msg else Ok (CStr [])
      | v => Ok (CStr v)
      end
  | BooleanField =>
      let b := CheckboxInput_value data (name f) in
      if required f && negb b then Invalid required_msg else Ok (CBool b)
  | ChoiceField choices =>
      match text_value data (name f) with
      | [] => if required f then Invalid required_msg else Ok (CStr [])
      | v => if Py.mem v choices then Ok (CStr v)
             else Invalid invalid_choice_msg
      end
  | DynamicModelChoiceField m _ _ =>
      match text_value data (name f) with
      | [] => if required f then Invalid required_msg else Ok CNone
      | v =>
          match Py.parse_int v with
          | None => Invalid invalid_choice_msg
          | Some k =>
              match queryset_get st m k with
              | Some _ => Ok (CObj m k)
              | None => Invalid invalid_choice_msg
              end
          end
      end
  end.

Record ModelForm := {
  form_model : Entity;
  fields : list Field;
  Meta_fields : list string
}.

(** The two results of the loop of [_clean_fields]: the errors, by field,
    and [cleaned_data]. *)
Definition field_errors (st : Store) (fs : list Field) (data : QueryDict)
  : list (string * string) :=
  flat_map (fun f => match clean st f data with
                     | Ok _ => []
                     | Invalid m => [(name f, m)]
                     end) fs.

Definition cleaned_data (st : Store) (fs : list Field) (data : QueryDict)
  : list (string * cleaned) :=
  flat_map (fun f => match clean st f data with
                     | Ok v => [(name f, v)]
                     | Invalid _ => []
                     end) fs.

Definition is_empty_value (v : cleaned) : bool :=
  match v with
  | CNone | CStr [] => true
  | _ => false
  end.

(** [construct_instance]: the cleaned values of the fields listed in
    [Meta.fields] become the attributes of the instance; an attribute
    that was not submitted and is empty is left to the model.  (The host
    leaves it to the model when the attribute has a default there, and
    sets only the names that are attributes of the model; both are
    declared in models/ and are not modelled.) *)
Definition construct_instance (form : ModelForm) (data : QueryDict)
  (cd : list (string * cleaned)) : list (string * cleaned) :=
  filter (fun kv =>
            existsb (String.eqb (fst kv)) (Meta_fields form) &&
            negb (match get data (fst kv) with
                  | None => is_empty_value (snd kv)
                  | Some _ => false
                  end)) cd.

Definition next_pk (st : Store) (m : Model) : N :=
  N.succ (fold_right N.max 0%N (map obj_pk (objects_all st m))).

Inductive outcome :=
| Saved (pk : N)
| ValidationError (errors : list (string * string)).

(** The instance that a valid creation form saves. *)
Definition new_instance (st : Store) (form : ModelForm) (data : QueryDict)
  : Obj := {|
  obj_model := ACI (form_model form);
  obj_pk := next_pk st (ACI (form_model form));
  attrs := construct_instance form data
             (cleaned_data st (fields form) data)
|}.

(** Submission of a creation form: [is_valid()] then [save()].  The
    validation that the model adds to that of the fields (the validators
    of the attributes declared in models/, uniqueness, its own [clean])
    and the edit of a stored object are not modelled. *)
Definition save (st : Store) (form : ModelForm) (data : QueryDict)
  : Store * outcome :=
  match field_errors st (fields form) data with
  | [] =>
      let o := new_instance st form data in
      ((st ++ [o])%list, Saved (obj_pk o))
  | errors => (st, ValidationError errors)
  end.


End Django.

(** ** forms/tenant_networks.py *)
Module Forms.
Import Models Validators Django.

(** choices.py is not among the sources: the choice sets that the forms
    import from it are a parameter of the declarations. *)
Record ChoiceSets := {
  BDMultiDestinationFloodingChoices : list Py.str;
  BDUnknownMulticastChoices : list Py.str;
  BDUnknownUnicastChoices : list Py.str;
  VRFPCEnforcementDirectionChoices : list Py.str;
  VRFPCEnforcementPreferenceChoices : list Py.str
}.

(** The values of the choice sets that the sources mention: the members
    read back by tests/test_models.py and the defaults named by the help
    texts of the forms. *)
Definition mentioned_choices : ChoiceSets := {|
  BDMultiDestinationFloodingChoices := [Py.s "bd-flood"];
  BDUnknownMulticastChoices := [Py.s "flood"];
  BDUnknownUnicastChoices := [Py.s "proxy"];
  VRFPCEnforcementDirectionChoices := [Py.s "ingress"; Py.s "egress"];
  VRFPCEnforcementPreferenceChoices := [Py.s "enforced"; Py.s "unenforced"]
|}.

(** Modelled from the spec: the form field of the name attribute, which
    the host derives from the model (models/ is missing); the name is
    required. *)
Definition name_field (e : Entity) : Field :=
  Build_Field "name" (CharField (name_rule e)) true "" "".

(** Modelled from the spec: the form field of the alias attribute
    (models/ is missing); the alias is optional. *)
Definition name_alias_field (e : Entity) : Field :=
  Build_Field "name_alias" (CharField (alias_rule e)) false "" "".

(** Modelled from the spec: the form field of the description attribute
    (models/ is missing); the description is optional. *)
Definition description_field (description_class : char_class) (e : Entity)
  : Field :=
  Build_Field "description"
    (CharField (description_rule description_class e)) false "" "".

(** The fields that the host derives from the model for the names of
    [Meta.fields] that a form does not declare.  The other derived fields
    (labels, MAC addresses, policy names, tags) have their rules in
    models/ and are not part of the embedding: what is proved of the
    fields of a form is proved of the fields listed here and of the
    declared ones.  A form lists these fields before the declared ones;
    the order of the fields only orders the errors of a submission. *)
Definition model_fields (description_class : char_class) (e : Entity)
  : list Field :=
  [name_field e; name_alias_field e; description_field description_class e].

Definition comments : Field := Build_Field "comments" CommentField false "" "".

Module ACIVRFForm.

Definition aci_tenant : Field :=
  Build_Field "aci_tenant"
    (DynamicModelChoiceField (ACI ACITenant)
       [("nb_tenant_id", "$nb_tenant")] [])
    true "ACI Tenant" "".

Definition nb_tenant_group : Field :=
  Build_Field "nb_tenant_group"
    (DynamicModelChoiceField TenantGroup [] [("tenants", "$nb_tenant")])
    false "NetBox tenant group" "".

Definition nb_tenant : Field :=
  Build_Field "nb_tenant"
    (DynamicModelChoiceField Tenant [("group_id", "$nb_tenant_group")] [])
    false "NetBox tenant" "".

Definition nb_vrf : Field :=
  Build_Field "nb_vrf"
    (DynamicModelChoiceField VRF [("nb_tenant_id", "$nb_tenant")] [])
    false "NetBox VRF" "".

Definition bd_enforcement_enabled : Field :=
  Build_Field "bd_enforcement_enabled" BooleanField false
    "Bridge Domain enforcement enabled"
    ("Allow EP to ping only gateways within associated bridge domain. " ++
     "Default is disabled.").

Definition ip_data_plane_learning_enabled : Field :=
  Build_Field "ip_data_plane_learning_enabled" BooleanField false
    "IP data plane learning enabled"
    ("Whether IP data plane learning is enabled for VRF. " ++
     "Default is enabled.").

Definition pc_enforcement_direction (c : ChoiceSets) : Field :=
  Build_Field "pc_enforcement_direction"
    (ChoiceField (VRFPCEnforcementDirectionChoices c)) false
    "Enforcement direction"
    ("Controls policy enforcement direction for VRF. " ++
     "Default is 'ingress'.").

Definition pc_enforcement_preference (c : ChoiceSets) : Field :=
  Build_Field "pc_enforcement_preference"
    (ChoiceField (VRFPCEnforcementPreferenceChoices c)) false
    "Enforcement preference"
    ("Controls policy enforcement preference for VRF. " ++
     "Default is 'enforced'.").

Definition pim_ipv4_enabled : Field :=
  Build_Field "pim_ipv4_enabled" BooleanField false
    "PIM (multicast) IPv4 enabled"
    "Multicast routing enabled for the VRF. Default is disabled.".

Definition pim_ipv6_enabled : Field :=
  Build_Field "pim_ipv6_enabled" BooleanField false
    "PIM (multicast) IPv6 enabled"
    "Multicast routing enabled for the VRF. Default is disabled.".

Definition preferred_group_enabled : Field :=
  Build_Field "preferred_group_enabled" BooleanField false
    "Preferred group enabled"
    ("Whether preferred group feature is enabled for the VRF. " ++
     "Default is disabled.").

Definition declared_fields (c : ChoiceSets) : list Field :=
  [aci_tenant; nb_tenant_group; nb_tenant; nb_vrf; bd_enforcement_enabled;
   ip_data_plane_learning_enabled; pc_enforcement_direction c;
   pc_enforcement_preference c; pim_ipv4_enabled; pim_ipv6_enabled;
   preferred_group_enabled; comments].

Definition form (c : ChoiceSets) (description_class : char_class)
  : ModelForm := {|
  form_model := ACIVRF;
  fields := (model_fields description_class ACIVRF ++ declared_fields c)%list;
  Meta_fields :=
    ["name"; "name_alias"; "description"; "aci_tenant"; "nb_tenant";
     "nb_vrf"; "bd_enforcement_enabled"; "dns_labels";
     "ip_data_plane_learning_enabled"; "pim_ipv4_enabled";
     "pim_ipv6_enabled"; "pc_enforcement_direction";
     "pc_enforcement_preference"; "preferred_group_enabled"; "comments";
     "tags"]
|}.

End ACIVRFForm.

Module ACIBridgeDomainForm.

Definition aci_tenant : Field :=
  Build_Field "aci_tenant"
    (DynamicModelChoiceField (ACI ACITenant) [] [("aci_vrfs", "$aci_vrf")])
    false "ACI Tenant" "".

Definition aci_vrf : Field :=
  Build_Field "aci_vrf"
    (DynamicModelChoiceField (ACI ACIVRF)
       [("aci_tenant_id", "$aci_tenant")] [])
    true "ACI VRF" "".

Definition nb_tenant_group : Field :=
  Build_Field "nb_tenant_group"
    (DynamicModelChoiceField TenantGroup [] [("tenants", "$nb_tenant")])
    false "NetBox tenant group" "".

Definition nb_tenant : Field :=
  Build_Field "nb_tenant"
    (DynamicModelChoiceField Tenant [("group_id", "$nb_tenant_group")] [])
    false "NetBox tenant" "".

Definition advertise_host_routes_enabled : Field :=
  Build_Field "advertise_host_routes_enabled" BooleanField false
    "Advertise host routes enabled"
    ("Advertise associated endpoints as host routes (/32 prefixes) " ++
     "out of the L3Outs. Default is disabled.").

Definition arp_flooding_enabled : Field :=
  Build_Field "arp_flooding_enabled" BooleanField false
    "ARP flooding enabled"
    ("Allow Address Resolution Protocol (ARP) to flood in this Bridge " ++
     "Domain. Default is disabled.").

Definition clear_remote_mac_enabled : Field :=
  Build_Field "clear_remote_mac_enabled" BooleanField false
    "Clear remote MAC entries enabled"
    ("Enables deletion of MAC EP on remote leaves, when EP gets " ++
     "deleted from local leaf. Default is disabled.").

Definition ep_move_detection_enabled : Field :=
  Build_Field "ep_move_detection_enabled" BooleanField false
    "EP move detection enabled"
    ("Enables Gratuitous ARP (GARP) to detect endpoint move. " ++
     "Default is disabled.").

Definition ip_data_plane_learning_enabled : Field :=
  Build_Field "ip_data_plane_learning_enabled" BooleanField false
    "IP data plane learning enabled"
    ("Whether IP data plane learning is enabled for Bridge Domain. " ++
     "Default is enabled.").

Definition limit_ip_learn_to_subnet : Field :=
  Build_Field "limit_ip_learn_to_subnet" BooleanField false
    "Limit IP learning to subnet"
    ("IP learning is limited to the Bridge Domain's subnets. " ++
     "Default is enabled.").

Definition multi_destination_flooding (c : ChoiceSets) : Field :=
  Build_Field "multi_destination_flooding"
    (ChoiceField (BDMultiDestinationFloodingChoices c)) false
    "Multi destination flooding"
    ("Forwarding methof for L2 multicast, broadcast, and link layer " ++
     "traffic. Default is 'bd-flood'.").

Definition pim_ipv4_enabled : Field :=
  Build_Field "pim_ipv4_enabled" BooleanField false
    "PIM (multicast) IPv4 enabled"
    ("Multicast routing enabled for the Bridge Domain. " ++
     "Default is disabled.").

Definition pim_ipv6_enabled : Field :=
  Build_Field "pim_ipv6_enabled" BooleanField false
    "PIM (multicast) IPv6 enabled"
    ("Multicast routing enabled for the Bridge Domain. " ++
     "Default is disabled.").

Definition unicast_routing_enabled : Field :=
  Build_Field "unicast_routing_enabled" BooleanField false
    "Unicast routing enabled"
    ("Whether IP forwarding is enabled for this Bridge Domain. " ++
     "Default is enabled.").

Definition unknown_ipv4_multicast (c : ChoiceSets) : Field :=
  Build_Field "unknown_ipv4_multicast"
    (ChoiceField (BDUnknownMulticastChoices c)) false
    "Unknown IPv4 multicast"
    ("Defines the IPv4 unknown multicast forwarding method. " ++
     "Default is 'flood'.").

Definition unknown_ipv6_multicast (c : ChoiceSets) : Field :=
  Build_Field "unknown_ipv6_multicast"
    (ChoiceField (BDUnknownMulticastChoices c)) false
    "Unknown IPv6 multicast"
    ("Defines the IPv6 unknown multicast forwarding method. " ++
     "Default is 'flood'.").

Definition unknown_unicast (c : ChoiceSets) : Field :=
  Build_Field "unknown_unicast"
    (ChoiceField (BDUnknownUnicastChoices c)) false
    "Unknown unicast"
    ("Defines the layer 2 unknown unicast forwarding method. " ++
     "Default is 'proxy'.").

Definition declared_fields (c : ChoiceSets) : list Field :=
  [aci_tenant; aci_vrf; nb_tenant_group; nb_tenant;
   advertise_host_routes_enabled; arp_flooding_enabled;
   clear_remote_mac_enabled; ep_move_detection_enabled;
   ip_data_plane_learning_enabled; limit_ip_learn_to_subnet;
   multi_destination_flooding c; pim_ipv4_enabled; pim_ipv6_enabled;
   unicast_routing_enabled; unknown_ipv4_multicast c;
   unknown_ipv6_multicast c; unknown_unicast c; comments].


Definition form (c : ChoiceSets) (description_class : char_class)
  : ModelForm := {|
  form_model := ACIBridgeDomain;
  fields :=
    (model_fields description_class ACIBridgeDomain ++ declared_fields c)%list;
  Meta_fields :=
    ["name"; "name_alias"; "description"; "aci_vrf";
     "advertise_host_routes_enabled"; "arp_flooding_enabled";
     "clear_remote_mac_enabled"; "dhcp_labels"; "ep_move_detection_enabled";
     "igmp_interface_policy_name"; "igmp_snooping_policy_name";
     "ip_data_plane_learning_enabled"; "limit_ip_learn_enabled";
     "mac_address"; "multi_destination_flooding"; "pim_ipv4_enabled";
     "pim_ipv4_destination_filter"; "pim_ipv4_source_filter";
     "pim_ipv6_enabled"; "unicast_routing_enabled";
     "unknown_ipv4_multicast"; "unknown_ipv6_multicast"; "unknown_unicast";
     "virtual_mac_address"; "comments"; "tags"]
|}.

End ACIBridgeDomainForm.

Module ACIBridgeDomainSubnetForm.

Definition aci_tenant : Field :=
  Build_Field "aci_tenant"
    (DynamicModelChoiceField (ACI ACITenant) [] [("aci_vrfs", "$aci_vrf")])
    false "ACI Tenant" "".

Definition aci_vrf : Field :=
  Build_Field "aci_vrf"
    (DynamicModelChoiceField (ACI ACIVRF)
       [("aci_tenant_id", "$aci_tenant")] [])
    false "ACI VRF" "".

Definition aci_bridge_domain : Field :=
  Build_Field "aci_bridge_domain"
    (DynamicModelChoiceField (ACI ACIBridgeDomain)
       [("aci_vrf_id", "$aci_vrf")] [])
    true "ACI Bridge Domain" "".

Definition nb_vrf : Field :=
  Build_Field "nb_vrf"
    (DynamicModelChoiceField VRF [("nb_tenant_id", "$nb_tenant")] [])
    false "NetBox VRF" "".

Definition gateway_ip_address : Field :=
  Build_Field "gateway_ip_address"
    (DynamicModelChoiceField IPAddress
       [("present_in_vrf_id", "$nd_vrf")] [])
    true "Gateway IP address" "".

Definition nb_tenant_group : Field :=
  Build_Field "nb_tenant_group"
    (DynamicModelChoiceField TenantGroup [] [("tenants", "$nb_tenant")])
    false "NetBox tenant group" "".

Definition nb_tenant : Field :=
  Build_Field "nb_tenant"
    (DynamicModelChoiceField Tenant [("group_id", "$nb_tenant_group")] [])
    false "NetBox tenant" "".

Definition advertised_externally_enabled : Field :=
  Build_Field "advertised_externally_enabled" BooleanField false
    "Advertised externally enabled"
    ("Advertises the subnet to the outside to any associated L3Outs " ++
     "(public scope). Default is disabled.").

Definition igmp_querier_enabled : Field :=
  Build_Field "igmp_querier_enabled" BooleanField false
    "IGMP querier enabled"
    ("Treat the gateway IP address as an IGMP querier source IP. " ++
     "Default is disabled.").

Definition ip_data_plane_learning_enabled : Field :=
  Build_Field "ip_data_plane_learning_enabled" BooleanField false
    "IP data plane learning enabled"
    ("Whether IP data plane learning is enabled for Bridge Domain. " ++
     "Default is enabled.").

Definition no_default_gateway : Field :=
  Build_Field "no_default_gateway" BooleanField false
    "No default gateway enabled"
    ("Remove the default gateway functionality of this gateway address. " ++
     "Default is disabled.").

Definition nd_ra_enabled : Field :=
  Build_Field "nd_ra_enabled" BooleanField false
    "ND RA enabled"
    ("Enables the gateway IP as a IPv6 Neighbor Discovery Router " ++
     "Advertisement Prefix. Default is enabled.").

Definition preferred_ip_address_enabled : Field :=
  Build_Field "preferred_ip_address_enabled" BooleanField false
    "Preferred (primary) IP enabled"
    ("Make this the preferred (primary) IP gateway of the Bridge " ++
     "Domain. Default is disabled.").

Definition shared_enabled : Field :=
  Build_Field "shared_enabled" BooleanField false
    "Shared enabled"
    ("Controls communication to the shared VRF (inter-VRF route " ++
     "leaking). Default is disabled.").

Definition virtual_ip_enabled : Field :=
  Build_Field "virtual_ip_enabled" BooleanField false
    "Virtual IP enabled"
    "Treat the gateway IP as virtual IP. Default is disabled.".

Definition declared_fields : list Field :=
  [aci_tenant; aci_vrf; aci_bridge_domain; nb_vrf; gateway_ip_address;
   nb_tenant_group; nb_tenant; advertised_externally_enabled;
   igmp_querier_enabled; ip_data_plane_learning_enabled; no_default_gateway;
   nd_ra_enabled; preferred_ip_address_enabled; shared_enabled;
   virtual_ip_enabled; comments].

Definition form (description_class : char_class) : ModelForm := {|
  form_model := ACIBridgeDomainSubnet;
  fields :=
    (model_fields description_class ACIBridgeDomainSubnet
       ++ declared_fields)%list;
  Meta_fields :=
    ["name"; "name_alias"; "gateway_ip_address"; "aci_bridge_domain";
     "description"; "aci_vrf"; "nb_tenant"; "advertised_externally_enabled";
     "igmp_querier_enabled"; "ip_data_plane_learning_enabled";
     "no_default_gateway"; "nd_ra_enabled"; "nd_ra_prefix_policy_name";
     "preferred_ip_address_enabled"; "shared_enabled"; "virtual_ip_enabled";
     "comments"; "tags"]
|}.

(** The names that the query parameters of a field take their value
    from: the entries written [$name]. *)
Definition dynamic_sources (f : Field) : list string :=
  match ftype f with
  | DynamicModelChoiceField _ query_params _ =>
      flat_map (fun kv => match snd kv with
                          | String "$" source => [source]
                          | _ => []
                          end) query_params
  | _ => []
  end.

End ACIBridgeDomainSubnetForm.

(** The forms of the Tenant, the Application Profile and the Endpoint
    Group are declared in forms/tenants.py and
    forms/tenant_app_profiles.py, which are missing; they are modelled
    with the text attributes and the relations of the data model. *)
Module SpecForms.

(** Modelled from the spec: the "optional link to an external tenant
    record" (forms/tenants.py is missing). *)
Definition nb_tenant : Field :=
  Build_Field "nb_tenant" (DynamicModelChoiceField Tenant [] []) false
    "NetBox tenant" "".

(** Modelled from the spec: an Application Profile "belongs to one
    Tenant" (forms/tenant_app_profiles.py is missing). *)
Definition aci_tenant : Field :=
  Build_Field "aci_tenant" (DynamicModelChoiceField (ACI ACITenant) [] [])
    true "ACI Tenant" "".

(** Modelled from the spec: an Endpoint Group "belongs to one
    ApplicationProfile and one BridgeDomain" (forms/tenant_app_profiles.py
    is missing). *)
Definition aci_app_profile : Field :=
  Build_Field "aci_app_profile"
    (DynamicModelChoiceField (ACI ACIAppProfile) [] []) true
    "ACI Application Profile" "".

(** Modelled from the spec: the Bridge Domain of an Endpoint Group
    (forms/tenant_app_profiles.py is missing). *)
Definition aci_bridge_domain : Field :=
  Build_Field "aci_bridge_domain"
    (DynamicModelChoiceField (ACI ACIBridgeDomain) [] []) true
    "ACI Bridge Domain" "".

(** Modelled from the spec: the form of the Tenant (forms/tenants.py is
    missing). *)
Definition ACITenantForm (description_class : char_class) : ModelForm := {|
  form_model := ACITenant;
  fields := (model_fields description_class ACITenant ++ [nb_tenant])%list;
  Meta_fields := ["name"; "name_alias"; "description"; "nb_tenant"]
|}.

(** Modelled from the spec: the form of the Application Profile
    (forms/tenant_app_profiles.py is missing). *)
Definition ACIAppProfileForm (description_class : char_class)
  : ModelForm := {|
  form_model := ACIAppProfile;
  fields :=
    (model_fields description_class ACIAppProfile
       ++ [aci_tenant; nb_tenant])%list;
  Meta_fields :=
    ["name"; "name_alias"; "description"; "aci_tenant"; "nb_tenant"]
|}.

(** Modelled from the spec: the form of the Endpoint Group
    (forms/tenant_app_profiles.py is missing). *)
Definition ACIEndpointGroupForm (description_class : char_class)
  : ModelForm := {|
  form_model := ACIEndpointGroup;
  fields :=
    (model_fields description_class ACIEndpointGroup
       ++ [aci_app_profile; aci_bridge_domain])%list;
  Meta_fields :=
    ["name"; "name_alias"; "description"; "aci_app_profile";
     "aci_bridge_domain"]
|}.

End SpecForms.

(** The creation form of each entity. *)
Definition entity_form (c : ChoiceSets) (description_class : char_class)
  (e : Entity) : ModelForm :=
  match e with
  | ACITenant => SpecForms.ACITenantForm description_class
  | ACIAppProfile => SpecForms.ACIAppProfileForm description_class
  | ACIVRF => ACIVRFForm.form c description_class
  | ACIBridgeDomain => ACIBridgeDomainForm.form c description_class
  | ACIBridgeDomainSubnet => ACIBridgeDomainSubnetForm.form description_class
  | ACIEndpointGroup => SpecForms.ACIEndpointGroupForm description_class
  end.

(** The creation forms of forms/tenant_networks.py. *)
Definition network_forms (c : ChoiceSets) (description_class : char_class)
  : list ModelForm :=
  [ACIVRFForm.form c description_class;
   ACIBridgeDomainForm.form c description_class;
   ACIBridgeDomainSubnetForm.form description_class].



End Forms.

(** ** Relations between stored objects *)
Module Relations.
Import Models Django.

(** The object [o] refers, under [key], to the object [k] of model [m],
    and that object is stored. *)
Definition belongs_to (st : Store) (o : Obj) (key : string) (m : Model)
  (k : N) : Prop :=
  attr (attrs o) key = Some (CObj m k) /\ queryset_get st m k <> None.

(** Every stored Bridge Domain belongs to one VRF and every stored VRF to
    one Tenant. *)
Definition referential (st : Store) : Prop :=
  (forall o, In o (objects_all st (ACI ACIBridgeDomain)) ->
     exists! k, belongs_to st o "aci_vrf" (ACI ACIVRF) k) /\
  (forall o, In o (objects_all st (ACI ACIVRF)) ->
     exists! k, belongs_to st o "aci_tenant" (ACI ACITenant) k).

(** The empty database. *)
Definition no_objects : Store := [].

(** The IP address [ip] is assigned to the VRF [vrf] (the filter
    [present_in_vrf_id] of the host, for an address of the VRF itself). *)
Definition present_in_vrf (st : Store) (ip vrf : N) : bool :=
  match queryset_get st IPAddress ip with
  | Some o =>
      match attr (attrs o) "vrf" with
      | Some (CObj VRF k) => N.eqb k vrf
      | _ => false
      end
  | None => false
  end.

End Relations.

(** ** The naming charset in the words of the specification *)

(** Letters, digits and the four characters [_ . : -]. *)
Definition name_char (c : N) : Prop :=
  (97 <= c <= 122 \/ 65 <= c <= 90 \/ 48 <= c <= 57 \/
   c = 95 \/ c = 46 \/ c = 58 \/ c = 45)%N.

(** A character set that fits what the specification says of a
    description: the printable ASCII characters, from the space to the
    tilde. *)
Definition printable_ascii : Validators.char_class :=
  [Validators.Range " " "~"].


(** ** The forwarding methods as the specification lists them *)



(** The choice set of a field. *)
Definition choices_of (f : Django.Field) : list Py.str :=
  match Django.ftype f with
  | Django.ChoiceField choices => choices
  | _ => []
  end.

(** ** Sample data *)

(** A store with one Tenant and one VRF of that Tenant. *)
Definition sample_store : Django.Store :=
  [Django.Build_Obj (Models.ACI Models.ACITenant) 1
     [("name", Django.CStr (Py.s "ACITestTenant1"))];
   Django.Build_Obj (Models.ACI Models.ACIVRF) 1
     [("name", Django.CStr (Py.s "VRFTest1"));
      ("aci_tenant", Django.CObj (Models.ACI Models.ACITenant) 1)]].

(** A submission of the Bridge Domain form that names the VRF. *)
Definition sample_bridge_domain : Django.QueryDict :=
  [("name", Py.s "BDTest1"); ("name_alias", Py.s "TestingBD");
   ("aci_vrf", Py.s "1"); ("unknown_unicast", Py.s "proxy")].


(** [sample_store] with a Bridge Domain of its VRF, two VRFs of the
    host, and an IP address that is assigned to the second of them. *)
Definition subnet_store : Django.Store :=
  (sample_store ++
   [Django.Build_Obj (Models.ACI Models.ACIBridgeDomain) 1
      [("name", Django.CStr (Py.s "BDTest1"));
       ("aci_vrf", Django.CObj (Models.ACI Models.ACIVRF) 1)];
    Django.Build_Obj Models.VRF 1
      [("name", Django.CStr (Py.s "NetBox-VRF"))];
    Django.Build_Obj Models.VRF 2
      [("name", Django.CStr (Py.s "Other-VRF"))];
    Django.Build_Obj Models.IPAddress 7
      [("address", Django.CStr (Py.s "10.0.0.1/24"));
       ("vrf", Django.CObj Models.VRF 2)]])%list.

(** A submission of the subnet form that selects the first VRF of the
    host and the IP address of the second as the gateway. *)
Definition subnet_outside_vrf : Django.QueryDict :=
  [("name", Py.s "SubnetTest1"); ("aci_vrf", Py.s "1");
   ("aci_bridge_domain", Py.s "1"); ("nb_vrf", Py.s "1");
   ("gateway_ip_address", Py.s "7")].

(** ** Field sets

    The [fieldsets] of the forms of forms/tenant_networks.py, and how the
    host renders them. *)
Module Layout.

(** A [FieldSet]: its items, and its name. *)
Record FieldSet := {
  items : list string;
  heading : option string
}.

Definition ACIVRFForm_fieldsets : list FieldSet :=
  [Build_FieldSet
     ["name"; "name_alias"; "aci_tenant"; "description"; "tags"]
     (Some "ACI VRF");
   Build_FieldSet
     ["pc_enforcement_direction"; "pc_enforcement_preference";
      "bd_enforcement_enabled"; "preferred_group_enabled"]
     (Some "Policy Control Settings");
   Build_FieldSet
     ["ip_data_plane_learning_enabled"]
     (Some "Endpoint Learning Settings");
   Build_FieldSet
     ["pim_ipv4_enabled"; "pim_ipv6_enabled"]
     (Some "Multicast Settings");
   Build_FieldSet
     ["dns_labels"]
     (Some "Additional Settings");
   Build_FieldSet
     ["nb_tenant_group"; "nb_tenant"]
     (Some "NetBox Tenancy");
   Build_FieldSet
     ["nb_vrf"]
     (Some "NetBox Networking")].

Definition ACIVRFFilterForm_fieldsets : list FieldSet :=
  [Build_FieldSet
     ["q"; "filter_id"; "tag"]
     None;
   Build_FieldSet
     ["name"; "name_alias"; "aci_tenant_id"; "description"]
     (Some "Attributes");
   Build_FieldSet
     ["pc_enforcement_direction"; "pc_enforcement_preference";
      "bd_enforcement_enabled"; "preferred_group_enabled"]
     (Some "Policy Control Settings");
   Build_FieldSet
     ["ip_data_plane_learning_enabled"]
     (Some "Endpoint Learning Settings");
   Build_FieldSet
     ["pim_ipv4_enabled"; "pim_ipv6_enabled"]
     (Some "Multicast Settings");
   Build_FieldSet
     ["dns_labels"]
     (Some "Additional Settings");
   Build_FieldSet
     ["nb_tenant_group_id"; "nb_tenant_id"]
     (Some "NetBox Tenancy");
   Build_FieldSet
     ["nb_vrf_id"]
     (Some "NetBox Networking")].

Definition ACIBridgeDomainForm_fieldsets : list FieldSet :=
  [Build_FieldSet
     ["name"; "name_alias"; "aci_tenant"; "aci_vrf"; "description"; "tags"]
     (Some "ACI Bridge Domain");
   Build_FieldSet
     ["unicast_routing_enabled"; "advertise_host_routes_enabled";
      "ep_move_detection_enabled"; "mac_address"; "virtual_mac_address"]
     (Some "Routing Settings");
   Build_FieldSet
     ["arp_flooding_enabled"; "unknown_unicast"; "unknown_ipv4_multicast";
      "unknown_ipv6_multicast"; "multi_destination_flooding"]
     (Some "Forwarding Method Settings");
   Build_FieldSet
     ["ip_data_plane_learning_enabled"; "limit_ip_learn_enabled";
      "clear_remote_mac_enabled"]
     (Some "Endpoint Learning Settings");
   Build_FieldSet
     ["pim_ipv4_enabled"; "pim_ipv6_enabled"; "igmp_interface_policy_name";
      "igmp_snooping_policy_name"; "pim_ipv4_source_filter";
      "pim_ipv4_destination_filter"]
     (Some "Multicast Settings");
   Build_FieldSet
     ["dhcp_labels"]
     (Some "Additional Settings");
   Build_FieldSet
     ["nb_tenant_group"; "nb_tenant"]
     (Some "NetBox Tenancy")].

Definition ACIBridgeDomainFilterForm_fieldsets : list FieldSet :=
  [Build_FieldSet
     ["q"; "filter_id"; "tag"]
     None;
   Build_FieldSet
     ["name"; "name_alias"; "aci_tenant_id"; "aci_vrf_id"; "description"]
     (Some "Attributes");
   Build_FieldSet
     ["unicast_routing_enabled"; "advertise_host_routes_enabled";
      "ep_move_detection_enabled"; "mac_address"; "virtual_mac_address"]
     (Some "Routing Settings");
   Build_FieldSet
     ["arp_flooding_enabled"; "unknown_unicast"; "unknown_ipv4_multicast";
      "unknown_ipv6_multicast"; "multi_destination_flooding"]
     (Some "Forwarding Method Settings");
   Build_FieldSet
     ["ip_data_plane_learning_enabled"; "limit_ip_learn_enabled";
      "clear_remote_mac_enabled"]
     (Some "Endpoint Learning Settings");
   Build_FieldSet
     ["pim_ipv4_enabled"; "pim_ipv6_enabled"; "igmp_interface_policy_name";
      "igmp_snooping_policy_name"; "pim_ipv4_source_filter";
      "pim_ipv4_destination_filter"]
     (Some "Multicast Settings");
   Build_FieldSet
     ["dhcp_labels"]
     (Some "Additional Settings");
   Build_FieldSet
     ["nb_tenant_group_id"; "nb_tenant_id"]
     (Some "NetBox Tenancy")].

Definition ACIBridgeDomainSubnetForm_fieldsets : list FieldSet :=
  [Build_FieldSet
     ["name"; "name_alias"; "aci_tenant"; "aci_vrf"; "aci_bridge_domain";
      "nb_vrf"; "gateway_ip_address"; "description"; "tags";
      "preferred_ip_address_enabled"; "virtual_ip_enabled"]
     (Some "ACI Bridge Domain Subnet");
   Build_FieldSet
     ["advertised_externally_enabled"; "shared_enabled"]
     (Some "Scope Settings");
   Build_FieldSet
     ["igmp_querier_enabled"; "no_default_gateway"]
     (Some "Subnet Control Settings");
   Build_FieldSet
     ["ip_data_plane_learning_enabled"]
     (Some "Endpoint Learning Settings");
   Build_FieldSet
     ["nd_ra_enabled"; "nd_ra_prefix_policy_name"]
     (Some "IPv6 Settings");
   Build_FieldSet
     ["nb_tenant_group"; "nb_tenant"]
     (Some "NetBox Tenancy")].

(** All the names that the field sets of a form list. *)
Definition listed (fieldsets : list FieldSet) : list string :=
  flat_map items fieldsets.

(** [render_fieldset], the tag that renders a field set of a model
    form: an item that is not a field of the form is skipped. *)
Definition render_fieldset (field_names : list string) (fs : FieldSet)
  : list string :=
  filter (fun item => existsb (String.eqb item) field_names) (items fs).

Definition render (field_names : list string) (fieldsets : list FieldSet)
  : list string :=
  flat_map (render_fieldset field_names) fieldsets.

(** The items of the field sets of a model form that the tag skips. *)
Definition skipped (field_names : list string) (fieldsets : list FieldSet)
  : list string :=
  filter (fun item => negb (existsb (String.eqb item) field_names))
         (listed fieldsets).

(** The names of a form that no field set lists. *)
Definition unlisted (field_names : list string) (fieldsets : list FieldSet)
  : list string :=
  filter (fun n => negb (existsb (String.eqb n) (listed fieldsets)))
         field_names.

(** The names of the fields of a model form: the names of [Meta.fields]
    and the names of the declared fields. *)
Definition model_form_names (form : Django.ModelForm) : list string :=
  (Django.Meta_fields form ++
   filter (fun n => negb (existsb (String.eqb n) (Django.Meta_fields form)))
          (map Django.name (Django.fields form)))%list.

(** The field sets of the three model forms, by form. *)
Definition model_form_layouts (c : Forms.ChoiceSets)
  (description_class : Validators.char_class)
  : list (Django.ModelForm * list FieldSet) :=
  [(Forms.ACIVRFForm.form c description_class, ACIVRFForm_fieldsets);
   (Forms.ACIBridgeDomainForm.form c description_class,
    ACIBridgeDomainForm_fieldsets);
   (Forms.ACIBridgeDomainSubnetForm.form description_class,
    ACIBridgeDomainSubnetForm_fieldsets)].

End Layout.

(** ** Filter forms of forms/tenant_networks.py *)
Module FilterForms.
Import Models.

Inductive FieldType :=
| CharField
| NullBooleanField (widget_choices : list (string * string))
| ChoiceField (choices : list Py.str)
| DynamicModelMultipleChoiceField (queryset : Model)
    (query_params : list (string * string)) (null_option : option string)
| TagFilterField (model : Model).

Record Field := {
  field_name : string;
  field_type : FieldType;
  field_required : bool;
  field_label : option string
}.

(** The choices of the select of a boolean filter, a constant of the
    host ([utilities.forms]). *)
Definition BOOLEAN_WITH_BLANK_CHOICES : list (string * string) :=
  [(EmptyString, "---------"); ("true", "Yes"); ("false", "No")].

Module ACIVRFFilterForm.

Definition name : Field :=
  Build_Field "name"
    CharField
    false None.

Definition name_alias : Field :=
  Build_Field "name_alias"
    CharField
    false None.

Definition description : Field :=
  Build_Field "description"
    CharField
    false None.

Definition aci_tenant_id : Field :=
  Build_Field "aci_tenant_id"
    (DynamicModelMultipleChoiceField (ACI ACITenant)
       [("nb_tenant_id", "$nb_tenant_id")] (Some "None"))
    false (Some "ACI Tenant").

Definition nb_tenant_group_id : Field :=
  Build_Field "nb_tenant_group_id"
    (DynamicModelMultipleChoiceField TenantGroup
       [] (Some "None"))
    false (Some "NetBox tenant group").

Definition nb_tenant_id : Field :=
  Build_Field "nb_tenant_id"
    (DynamicModelMultipleChoiceField Tenant
       [("group_id", "$nb_tenant_group_id")] (Some "None"))
    false (Some "NetBox tenant").

Definition nb_vrf_id : Field :=
  Build_Field "nb_vrf_id"
    (DynamicModelMultipleChoiceField VRF
       [("tenant_id", "$nb_tenant_id")] (Some "None"))
    false (Some "NetBox VRF").

Definition bd_enforcement_enabled : Field :=
  Build_Field "bd_enforcement_enabled"
    (NullBooleanField BOOLEAN_WITH_BLANK_CHOICES)
    false (Some "Enabled Bridge Domain enforcement").

Definition dns_labels : Field :=
  Build_Field "dns_labels"
    CharField
    false (Some "DNS labels").

Definition ip_data_plane_learning_enabled : Field :=
  Build_Field "ip_data_plane_learning_enabled"
    (NullBooleanField BOOLEAN_WITH_BLANK_CHOICES)
    false (Some "Enabled IP data plane learning").

Definition pc_enforcement_direction (c : Forms.ChoiceSets) : Field :=
  Build_Field "pc_enforcement_direction"
    (ChoiceField (Forms.VRFPCEnforcementDirectionChoices c))
    false (Some "Policy control enforcement direction").

Definition pc_enforcement_preference (c : Forms.ChoiceSets) : Field :=
  Build_Field "pc_enforcement_preference"
    (ChoiceField (Forms.VRFPCEnforcementPreferenceChoices c))
    false (Some "Policy control enforcement preference").

Definition pim_ipv4_enabled : Field :=
  Build_Field "pim_ipv4_enabled"
    (NullBooleanField BOOLEAN_WITH_BLANK_CHOICES)
    false (Some "Enabled PIM (multicast) IPv4").

Definition pim_ipv6_enabled : Field :=
  Build_Field "pim_ipv6_enabled"
    (NullBooleanField BOOLEAN_WITH_BLANK_CHOICES)
    false (Some "Enabled PIM (multicast) IPv6").

Definition preferred_group_enabled : Field :=
  Build_Field "preferred_group_enabled"
    (NullBooleanField BOOLEAN_WITH_BLANK_CHOICES)
    false (Some "Enabled preferred group").

Definition tag : Field :=
  Build_Field "tag"
    (TagFilterField (ACI ACITenant))
    false None.

Definition declared_fields (c : Forms.ChoiceSets) : list Field :=
  [name; name_alias; description; aci_tenant_id; nb_tenant_group_id;
   nb_tenant_id; nb_vrf_id; bd_enforcement_enabled; dns_labels;
   ip_data_plane_learning_enabled; pc_enforcement_direction c;
   pc_enforcement_preference c; pim_ipv4_enabled; pim_ipv6_enabled;
   preferred_group_enabled; tag].

End ACIVRFFilterForm.

Module ACIBridgeDomainFilterForm.

Definition name : Field :=
  Build_Field "name"
    CharField
    false None.

Definition name_alias : Field :=
  Build_Field "name_alias"
    CharField
    false None.

Definition description : Field :=
  Build_Field "description"
    CharField
    false None.

Definition aci_tenant_id : Field :=
  Build_Field "aci_tenant_id"
    (DynamicModelMultipleChoiceField (ACI ACITenant)
       [("nb_tenant_id", "$nb_tenant_id")] (Some "None"))
    false (Some "ACI Tenant").

Definition nb_tenant_group_id : Field :=
  Build_Field "nb_tenant_group_id"
    (DynamicModelMultipleChoiceField TenantGroup
       [] (Some "None"))
    false (Some "NetBox tenant group").

Definition nb_tenant_id : Field :=
  Build_Field "nb_tenant_id"
    (DynamicModelMultipleChoiceField Tenant
       [("group_id", "$nb_tenant_group_id")] (Some "None"))
    false (Some "NetBox tenant").

Definition advertise_host_routes_enabled : Field :=
  Build_Field "advertise_host_routes_enabled"
    (NullBooleanField BOOLEAN_WITH_BLANK_CHOICES)
    false (Some "Advertise host routes enabled").

Definition arp_flooding_enabled : Field :=
  Build_Field "arp_flooding_enabled"
    (NullBooleanField BOOLEAN_WITH_BLANK_CHOICES)
    false (Some "ARP flooding enabled").

Definition clear_remote_mac_enabled : Field :=
  Build_Field "clear_remote_mac_enabled"
    (NullBooleanField BOOLEAN_WITH_BLANK_CHOICES)
    false (Some "Clear remote MAC entries enabled").

Definition dhcp_labels : Field :=
  Build_Field "dhcp_labels"
    CharField
    false (Some "DHCP labels").

Definition ep_move_detection_enabled : Field :=
  Build_Field "ep_move_detection_enabled"
    (NullBooleanField BOOLEAN_WITH_BLANK_CHOICES)
    false (Some "EP move detection enabled").

Definition ip_data_plane_learning_enabled : Field :=
  Build_Field "ip_data_plane_learning_enabled"
    (NullBooleanField BOOLEAN_WITH_BLANK_CHOICES)
    false (Some "IP data plane learning enabled").

Definition limit_ip_learn_enabled : Field :=
  Build_Field "limit_ip_learn_enabled"
    (NullBooleanField BOOLEAN_WITH_BLANK_CHOICES)
    false (Some "Limit IP learning to subnet enabled").

Definition multi_destination_flooding (c : Forms.ChoiceSets) : Field :=
  Build_Field "multi_destination_flooding"
    (ChoiceField (Forms.BDMultiDestinationFloodingChoices c))
    false (Some "Multi destination flooding").

Definition pim_ipv4_enabled : Field :=
  Build_Field "pim_ipv4_enabled"
    (NullBooleanField BOOLEAN_WITH_BLANK_CHOICES)
    false (Some "PIM (multicast) IPv4 enabled").

Definition pim_ipv6_enabled : Field :=
  Build_Field "pim_ipv6_enabled"
    (NullBooleanField BOOLEAN_WITH_BLANK_CHOICES)
    false (Some "PIM (multicast) IPv6 enabled").

Definition unicast_routing_enabled : Field :=
  Build_Field "unicast_routing_enabled"
    (NullBooleanField BOOLEAN_WITH_BLANK_CHOICES)
    false (Some "Unicast routing enabled").

Definition unknown_ipv4_multicast (c : Forms.ChoiceSets) : Field :=
  Build_Field "unknown_ipv4_multicast"
    (ChoiceField (Forms.BDUnknownMulticastChoices c))
    false (Some "Unknown IPv4 multicast").

Definition unknown_ipv6_multicast (c : Forms.ChoiceSets) : Field :=
  Build_Field "unknown_ipv6_multicast"
    (ChoiceField (Forms.BDUnknownMulticastChoices c))
    false (Some "Unknown IPv6 multicast").

Definition unknown_unicast (c : Forms.ChoiceSets) : Field :=
  Build_Field "unknown_unicast"
    (ChoiceField (Forms.BDUnknownUnicastChoices c))
    false (Some "Unknown unicast").

Definition tag : Field :=
  Build_Field "tag"
    (TagFilterField (ACI ACITenant))
    false None.

Definition declared_fields (c : Forms.ChoiceSets) : list Field :=
  [name; name_alias; description; aci_tenant_id; nb_tenant_group_id;
   nb_tenant_id; advertise_host_routes_enabled; arp_flooding_enabled;
   clear_remote_mac_enabled; dhcp_labels; ep_move_detection_enabled;
   ip_data_plane_learning_enabled; limit_ip_learn_enabled;
   multi_destination_flooding c; pim_ipv4_enabled; pim_ipv6_enabled;
   unicast_routing_enabled; unknown_ipv4_multicast c; unknown_ipv6_multicast
   c; unknown_unicast c; tag].

End ACIBridgeDomainFilterForm.

Record FilterForm := {
  model : Entity;
  fields : list Field;
  fieldsets : list Layout.FieldSet
}.

Definition ACIVRFFilterForm_form (c : Forms.ChoiceSets) : FilterForm := {|
  model := ACIVRF;
  fields := ACIVRFFilterForm.declared_fields c;
  fieldsets := Layout.ACIVRFFilterForm_fieldsets
|}.

Definition ACIBridgeDomainFilterForm_form (c : Forms.ChoiceSets)
  : FilterForm := {|
  model := ACIBridgeDomain;
  fields := ACIBridgeDomainFilterForm.declared_fields c;
  fieldsets := Layout.ACIBridgeDomainFilterForm_fieldsets
|}.

Definition filter_forms (c : Forms.ChoiceSets) : list FilterForm :=
  [ACIVRFFilterForm_form c; ACIBridgeDomainFilterForm_form c].

(** The fields that the base class of a filter form brings: the search
    box and the saved filter. *)
Definition base_names : list string := ["q"; "filter_id"].

(** The names of the fields of a filter form. *)
Definition names (ff : FilterForm) : list string :=
  (base_names ++ map field_name (fields ff))%list.



End FilterForms.

(** ** References between the fields of a form *)
Module References.

(** The field names that a list of parameters refers to: the values
    written [$name]. *)
Definition sources (params : list (string * string)) : list string :=
  flat_map (fun kv => match snd kv with
                      | String "$" source => [source]
                      | _ => []
                      end) params.

Definition of_field (f : Django.Field) : list string :=
  match Django.ftype f with
  | Django.DynamicModelChoiceField _ query_params initial_params =>
      (sources query_params ++ sources initial_params)%list
  | _ => []
  end.

Definition of_filter_field (f : FilterForms.Field) : list string :=
  match FilterForms.field_type f with
  | FilterForms.DynamicModelMultipleChoiceField _ query_params _ =>
      sources query_params
  | _ => []
  end.

(** The references of a form that name no field of the form, each with
    the field that makes it. *)
Definition dangling (form : Django.ModelForm) : list (string * string) :=
  flat_map (fun f =>
              map (fun r => (Django.name f, r))
                  (filter (fun r => negb (existsb (String.eqb r)
                                            (map Django.name
                                                 (Django.fields form))))
                          (of_field f)))
           (Django.fields form).

Definition dangling_filter (ff : FilterForms.FilterForm)
  : list (string * string) :=
  flat_map (fun f =>
              map (fun r => (FilterForms.field_name f, r))
                  (filter (fun r => negb (existsb (String.eqb r)
                                            (FilterForms.names ff)))
                          (of_filter_field f)))
           (FilterForms.fields ff).

End References.

(** ** __init__.py *)
Module Config.

Definition __version__ : string := "0.0.1".

(** [ACIConfig]: the attributes of the plugin. *)
Definition name : string := "netbox_aci_plugin".
Definition verbose_name : string := "NetBox ACI Plugin".
Definition description : string :=
  "NetBox plugin for documenting Cisco ACI specific objects.".
Definition version : string := __version__.
Definition base_url : string := "aci".
Definition min_version : string := "4.0.0-beta2".
Definition max_version : string := "4.0.99".

(** *** Versions

    The host compares its own version with [min_version] and
    [max_version] as versions of PEP 440.  A version is modelled with its
    release numbers, an optional pre-release and an optional development
    number, which is what the versions of the host are made of. *)
Inductive PreKind := Alpha | Beta | Rc.

Record Version := {
  release : list nat;
  pre : option (PreKind * nat);
  dev : option nat
}.

Definition is_digit (a : ascii) : bool :=
  ((48 <=? nat_of_ascii a) && (nat_of_ascii a <=? 57))%nat.

(** Reads a number at the head of a list of characters. *)
Fixpoint read_nat (acc : nat) (l : list ascii) : nat * list ascii :=
  match l with
  | a :: rest =>
      if is_digit a then read_nat (acc * 10 + (nat_of_ascii a - 48))%nat rest
      else (acc, l)
  | [] => (acc, [])
  end.

Definition starts_with_digit (l : list ascii) : bool :=
  match l with
  | a :: _ => is_digit a
  | [] => false
  end.

(** Reads [N(.N)*]; [fuel] bounds the number of segments. *)
Fixpoint read_release (fuel : nat) (l : list ascii)
  : option (list nat * list ascii) :=
  match fuel with
  | 0 => None
  | S fuel' =>
      if starts_with_digit l then
        let (n, rest) := read_nat 0 l in
        match rest with
        | "."%char :: rest' =>
            if starts_with_digit rest' then
              match read_release fuel' rest' with
              | Some (ns, rest'') => Some (n :: ns, rest'')
              | None => None
              end
            else Some ([n], rest)
        | _ => Some ([n], rest)
        end
      else None
  end.

(** Drops one separator [-], [_] or [.]. *)
Definition skip_separator (l : list ascii) : list ascii :=
  match l with
  | "-"%char :: rest | "_"%char :: rest | "."%char :: rest => rest
  | _ => l
  end.

Fixpoint strip_word (word : list ascii) (l : list ascii)
  : option (list ascii) :=
  match word with
  | [] => Some l
  | a :: word' =>
      match l with
      | b :: l' => if Ascii.eqb a b then strip_word word' l' else None
      | [] => None
      end
  end.

(** The spellings of the pre-release tags, longest first. *)
Definition pre_tags : list (string * PreKind) :=
  [("alpha", Alpha); ("beta", Beta); ("preview", Rc); ("pre", Rc);
   ("rc", Rc); ("a", Alpha); ("b", Beta); ("c", Rc)].

Fixpoint read_tag (tags : list (string * PreKind)) (l : list ascii)
  : option (PreKind * list ascii) :=
  match tags with
  | [] => None
  | (w, k) :: tags' =>
      match strip_word (list_ascii_of_string w) l with
      | Some rest => Some (k, rest)
      | None => read_tag tags' l
      end
  end.

(** An optional number after a tag; it is 0 when it is not written. *)
Definition read_number (l : list ascii) : nat * list ascii :=
  let l' := skip_separator l in
  if starts_with_digit l' then read_nat 0 l' else (0, l).

Definition read_pre (l : list ascii)
  : option (PreKind * nat) * list ascii :=
  match read_tag pre_tags (skip_separator l) with
  | Some (k, rest) => let (n, rest') := read_number rest in
                      (Some (k, n), rest')
  | None => (None, l)
  end.

Definition read_dev (l : list ascii) : option nat * list ascii :=
  match strip_word (list_ascii_of_string "dev") (skip_separator l) with
  | Some rest => let (n, rest') := read_number rest in (Some n, rest')
  | None => (None, l)
  end.

(** [version.parse], for a version written in lower case with a release,
    an optional pre-release and an optional development number. *)
Definition parse (v : string) : option Version :=
  let l := list_ascii_of_string v in
  match read_release (List.length l) l with
  | Some (ns, rest) =>
      let (p, rest') := read_pre rest in
      let (d, rest'') := read_dev rest' in
      match rest'' with
      | [] => Some {| release := ns; pre := p; dev := d |}
      | _ => None
      end
  | None => None
  end.

(** The release without its final zeros. *)
Fixpoint strip_zeros (ns : list nat) : list nat :=
  match ns with
  | [] => []
  | n :: rest =>
      match strip_zeros rest with
      | [] => if Nat.eqb n 0 then [] else [n]
      | rest' => n :: rest'
      end
  end.

Fixpoint compare_release (a b : list nat) : comparison :=
  match a, b with
  | [], [] => Eq
  | [], _ :: _ => Lt
  | _ :: _, [] => Gt
  | x :: a', y :: b' =>
      match Nat.compare x y with
      | Eq => compare_release a' b'
      | c => c
      end
  end.

(** The place of the pre-release in the order: a development version
    with no pre-release comes first, then the pre-releases, then the
    version with no pre-release. *)
Definition pre_rank (v : Version) : nat * nat :=
  match pre v, dev v with
  | Some (Alpha, n), _ => (1, n)
  | Some (Beta, n), _ => (2, n)
  | Some (Rc, n), _ => (3, n)
  | None, Some _ => (0, 0)
  | None, None => (4, 0)
  end.

(** The place of the development number: a development version comes
    before the version itself. *)
Definition dev_rank (v : Version) : nat * nat :=
  match dev v with
  | Some n => (0, n)
  | None => (1, 0)
  end.

Definition compare_pair (a b : nat * nat) : comparison :=
  match Nat.compare (fst a) (fst b) with
  | Eq => Nat.compare (snd a) (snd b)
  | c => c
  end.

Definition compare (a b : Version) : comparison :=
  match compare_release (strip_zeros (release a)) (strip_zeros (release b)) with
  | Eq =>
      match compare_pair (pre_rank a) (pre_rank b) with
      | Eq => compare_pair (dev_rank a) (dev_rank b)
      | c => c
      end
  | c => c
  end.

(** The outcome of the check of the version: the plugin is loaded, or
    the host raises [ImproperlyConfigured] because its version is below
    the minimum or above the maximum. *)
Inductive validation :=
| Accepted
| BelowMinimum
| AboveMaximum.

(** [PluginConfig.validate]: the version of the host must not be below
    [min_version] nor above [max_version]; [None] when one of the two
    is not a version. *)
Definition validate (netbox_version : Version) : option validation :=
  match parse min_version, parse max_version with
  | Some lo, Some hi =>
      match compare netbox_version lo with
      | Lt => Some BelowMinimum
      | _ =>
          match compare netbox_version hi with
          | Gt => Some AboveMaximum
          | _ => Some Accepted
          end
      end
  | _, _ => None
  end.

(** A final release [major.minor.patch]. *)
Definition final (major minor patch : nat) : Version :=
  {| release := [major; minor; patch]; pre := None; dev := None |}.

End Config.

(** ** api/urls.py *)
Module Urls.

(** The view sets of [views], which the router registers. *)
Inductive ViewSet :=
| ACITenantListViewSet
| ACIAppProfileListViewSet
| ACIBridgeDomainListViewSet
| ACIBridgeDomainSubnetListViewSet
| ACIEndpointGroupListViewSet
| ACIVRFListViewSet.

Definition app_name : string := "netbox_aci_plugin".

(** The calls of [router.register], in file order. *)
Definition registry : list (string * ViewSet) :=
  [("tenants", ACITenantListViewSet);
   ("app-profiles", ACIAppProfileListViewSet);
   ("bridge-domains", ACIBridgeDomainListViewSet);
   ("bridge-domain-subnets", ACIBridgeDomainSubnetListViewSet);
   ("endpointgroups", ACIEndpointGroupListViewSet);
   ("vrfs", ACIVRFListViewSet)].

(** The two routes that a router makes for a registration: the list, at
    [prefix/], and one object, at [prefix/pk/].  The variants of these
    routes with a format suffix are not part of the model. *)
Inductive Route :=
| List
| Detail (pk : string).

(** The rest of [path] after [prefix], when [path] starts with it. *)
Fixpoint strip_prefix (prefix path : string) : option string :=
  match prefix with
  | EmptyString => Some path
  | String a prefix' =>
      match path with
      | String b path' =>
          if Ascii.eqb a b then strip_prefix prefix' path' else None
      | EmptyString => None
      end
  end.

(** The value of the lookup [[^/.]+] followed by the final slash: the
    characters up to the slash that ends the path, none of them a slash
    or a dot. *)
Fixpoint lookup_value (rest : string) : option string :=
  match rest with
  | EmptyString => None
  | String c rest' =>
      if Ascii.eqb c "/" then
        match rest' with
        | EmptyString => Some EmptyString
        | String _ _ => None
        end
      else if Ascii.eqb c "." then None
      else option_map (String c) (lookup_value rest')
  end.

(** The route of a registration that a path matches. *)
Definition match_route (prefix path : string) : option Route :=
  match strip_prefix prefix path with
  | Some (String "/" rest) =>
      match rest with
      | EmptyString => Some List
      | String _ _ =>
          match lookup_value rest with
          | Some (String c pk) => Some (Detail (String c pk))
          | _ => None
          end
      end
  | _ => None
  end.

(** Resolution of a path: the first registration with a route that
    matches. *)
Fixpoint resolve (routes : list (string * ViewSet)) (path : string)
  : option (ViewSet * Route) :=
  match routes with
  | [] => None
  | (prefix, viewset) :: rest =>
      match match_route prefix path with
      | Some r => Some (viewset, r)
      | None => resolve rest path
      end
  end.

(** The path of the API of the plugin in the host: [api/plugins/], then
    the [base_url] of the plugin. *)
Definition api_root : string := "api/plugins/" ++ Config.base_url ++ "/".

Definition resolve_api (path : string) : option (ViewSet * Route) :=
  match strip_prefix api_root path with
  | Some rest => resolve registry rest
  | None => None
  end.

(** The paths of the list and of an object of a registration. *)
Definition list_path (prefix : string) : string := prefix ++ "/".

Definition detail_path (prefix pk : string) : string :=
  prefix ++ "/" ++ pk ++ "/".

(** A key that the lookup accepts: not empty, with no slash and no dot. *)
Fixpoint no_slash_no_dot (pk : string) : bool :=
  match pk with
  | EmptyString => true
  | String c rest =>
      negb (Ascii.eqb c "/") && negb (Ascii.eqb c ".") &&
      no_slash_no_dot rest
  end.

Definition valid_pk (pk : string) : bool :=
  match pk with
  | EmptyString => false
  | String _ _ => no_slash_no_dot pk
  end.

End Urls.

(** ** Queries on the declarations of a form *)
Module FormInfo.
Import Django.

(** The names of the required fields of a form. *)
Definition required_names (form : ModelForm) : list string :=
  map name (filter required (fields form)).

(** The names of the fields of a form that [Meta.fields] does not list. *)
Definition unlisted_names (form : ModelForm) : list string :=
  map name
    (filter (fun f => negb (existsb (String.eqb (name f)) (Meta_fields form)))
            (fields form)).

(** The names of the choice fields of a form. *)
Definition choice_names (form : ModelForm) : list string :=
  map name
    (filter (fun f => match ftype f with
                      | ChoiceField _ => true
                      | _ => false
                      end) (fields form)).

(** The kinds of field whose cleaning can end in an error: a text field,
    a choice, a relation, and a checkbox that is required. *)
Definition can_fail (f : Field) : bool :=
  match ftype f with
  | CharField _ | CommentField | ChoiceField _
  | DynamicModelChoiceField _ _ _ => true
  | BooleanField => required f
  end.

End FormInfo.

(** ** Search indexes and forms *)

(** The attributes that a search index displays and that the form of the
    entity does not list in [Meta.fields]. *)
Definition displayed_not_listed (idx : Search.SearchIndex)
  (form : Django.ModelForm) : list string :=
  filter (fun a => negb (existsb (String.eqb a) (Django.Meta_fields form)))
         (Search.display_attrs idx).

(** The search indexes of the entities of forms/tenant_networks.py, each
    with the form of its entity. *)
Definition network_indexes (c : Forms.ChoiceSets)
  (description_class : Validators.char_class)
  : list (Search.SearchIndex * Django.ModelForm) :=
  [(Search.ACIVRFIndex, Forms.ACIVRFForm.form c description_class);
   (Search.ACIBridgeDomainIndex,
    Forms.ACIBridgeDomainForm.form c description_class);
   (Search.ACIBridgeDomainSubnetIndex,
    Forms.ACIBridgeDomainSubnetForm.form description_class)].

(** A submission of the VRF form; it has no key for a checkbox. *)
Definition vrf_submission : Django.QueryDict :=
  [("name", Py.s "VRFTest2"); ("aci_tenant", Py.s "1");
   ("pc_enforcement_direction", Py.s "egress")].

(** * Properties *)

(** ** Naming, alias and description rules *)
Section ValidatorFacts.
Import Validators.

Lemma match_repeat_spec (cls : char_class) (input : Py.str) :
  forall lo hi,
    match_repeat cls lo hi input = true <->
    lo <= List.length input <= hi /\ forallb (class_matches cls) input = true.
Proof.
  induction input as [|c rest IH]; intros lo hi; simpl.
  - destruct lo; simpl; intuition (discriminate || lia).
  - destruct hi as [|hi'].
    + split; [discriminate | lia].
    + rewrite !andb_true_iff, IH. intuition lia.
Qed.

Lemma name_class_spec (c : N) :
  class_matches name_class c = true <-> name_char c.
Proof.
  unfold class_matches, name_class, name_char; simpl.
  rewrite !orb_true_iff, !andb_true_iff, !N.leb_le, !N.eqb_eq.
  intuition discriminate.
Qed.

End ValidatorFacts.

Section NamingRules.
Import Models Validators.

Lemma forallb_class (cls : char_class) (P : N -> Prop) (v : Py.str) :
  (forall c, class_matches cls c = true <-> P c) ->
  forallb (class_matches cls) v = true <-> Forall P v.
Proof.
  intros HP. rewrite forallb_forall, Forall_forall.
  split; intros H c Hc; apply HP, H, Hc.
Qed.

Lemma accepts_spec (r : Rule) (v : Py.str) :
  accepts r v = true <->
  (v = [] /\ optional r = true) \/
  (v <> [] /\ regex_search (pattern r) v = true).
Proof.
  unfold accepts, validate. destruct v as [|c rest].
  - destruct (optional r); split; intros H; auto.
    + destruct H as [[_ H] | [H _]]; [discriminate | now destruct H].
  - destruct (regex_search _ _); split; intros H; auto.
    + right. split; [discriminate | reflexivity].
    + discriminate.
    + destruct H as [[H _] | [_ H]]; discriminate.
Qed.

Lemma name_accepts (e : Entity) (v : Py.str) :
  accepts (name_rule e) v = true <->
  1 <= List.length v <= 64 /\ Forall name_char v.
Proof.
  rewrite accepts_spec. unfold regex_search; simpl.
  rewrite match_repeat_spec, (forallb_class _ name_char) by apply name_class_spec.
  destruct v; simpl; split; intros H.
  - destruct H as [[_ H] | [H _]]; [discriminate | now destruct H].
  - lia.
  - destruct H as [[H _] | [_ H]]; [discriminate | exact H].
  - right. split; [discriminate | exact H].
Qed.

Lemma alias_accepts (e : Entity) (v : Py.str) :
  accepts (alias_rule e) v = true <->
  List.length v <= 64 /\ Forall name_char v.
Proof.
  rewrite accepts_spec. unfold regex_search; simpl.
  rewrite match_repeat_spec, (forallb_class _ name_char) by apply name_class_spec.
  destruct v; simpl; split; intros H.
  - split; [lia | constructor].
  - now left.
  - destruct H as [[H _] | [_ H]]; [discriminate | ]. split; [lia | tauto].
  - right. split; [discriminate | ]. split; [lia | tauto].
Qed.

(** C1. For each of the six entities, the name rule accepts exactly the
    strings of 1 to 64 characters taken from letters, digits and [_.:-]
    (the strings that match [^[a-zA-Z0-9_.:-]{1,64}$]); the alias rule
    accepts the same strings and the empty string.  The name
    "ACITestTenant1" and the alias "TestingTenant" are accepted; the name
    "ACI Test Tenant 1" and the alias "Invalid Alias" are rejected. *)
Theorem name_and_alias_rules (e : Entity) (v : Py.str) :
  (accepts (name_rule e) v = true <->
     1 <= List.length v <= 64 /\ Forall name_char v) /\
  (accepts (alias_rule e) v = true <->
     v = [] \/ accepts (name_rule e) v = true) /\
  accepts (name_rule e) (Py.s "ACITestTenant1") = true /\
  accepts (alias_rule e) (Py.s "TestingTenant") = true /\
  accepts (name_rule e) (Py.s "ACI Test Tenant 1") = false /\
  accepts (alias_rule e) (Py.s "Invalid Alias") = false.
Proof.
  split; [apply name_accepts|].
  split; [|repeat split; reflexivity].
  rewrite alias_accepts, name_accepts.
  destruct v as [|c rest]; simpl.
  - split; [now left | intros _; split; [lia | constructor]].
  - split; intros H.
    + right. split; [lia | tauto].
    + destruct H as [H | H]; [discriminate | ]. split; [lia | tauto].
Qed.

Lemma name_char_not_space (c : N) : name_char c -> Py.isspace c = false.
Proof.
  unfold name_char, Py.isspace. intros H.
  repeat (apply orb_false_intro);
    try (apply N.eqb_neq; lia);
    apply andb_false_iff; rewrite !N.leb_gt; lia.
Qed.

Lemma strip_without_space (v : Py.str) :
  Forall (fun c => Py.isspace c = false) v -> Py.strip v = v.
Proof.
  assert (Hl : forall w, Forall (fun c => Py.isspace c = false) w ->
                         Py.lstrip w = w).
  { intros w Hw. destruct Hw as [|c w Hc _]; simpl; [reflexivity|].
    now rewrite Hc. }
  intros Hv. unfold Py.strip.
  rewrite (Hl v Hv), (Hl (rev v)) by now apply Forall_rev.
  apply rev_involutive.
Qed.

(** C9. A name that the name rule accepts is returned as it was given,
    and is accepted again, with the same result, when it is validated
    again; submitted again in a form, it is cleaned to itself. *)
Theorem name_validation_idempotent (e : Entity) (v v' : Py.str) :
  validate (name_rule e) v = Ok v' ->
  v' = v /\
  validate (name_rule e) v' = Ok v' /\
  forall st, Django.clean st (Forms.name_field e) [("name", v')]
             = Ok (Django.CStr v').
Proof.
  intros H.
  assert (Hv : v' = v).
  { unfold validate in H. destruct v as [|c rest].
    - destruct (optional _); [now inversion H | discriminate].
    - destruct (regex_search _ _); [now inversion H | discriminate]. }
  subst v'. split; [reflexivity | split; [exact H|]].
  intros st.
  assert (Hacc : accepts (name_rule e) v = true)
    by (unfold accepts; now rewrite H).
  apply name_accepts in Hacc. destruct Hacc as [Hlen Hall].
  unfold Django.clean, Django.text_value. simpl Django.get.
  rewrite strip_without_space.
  - change (Django.ftype (Forms.name_field e)) with
      (Django.CharField (name_rule e)).
    destruct v as [|c rest]; [simpl in Hlen; lia|].
    now rewrite H.
  - eapply Forall_impl; [|exact Hall]. apply name_char_not_space.
Qed.

Lemma name_validation_idempotent_witness :
  validate (name_rule ACITenant) (Py.s "ACITestTenant1")
    = Ok (Py.s "ACITestTenant1") /\
  Django.clean Relations.no_objects (Forms.name_field ACITenant)
    [("name", Py.s "ACITestTenant1")]
    = Ok (Django.CStr (Py.s "ACITestTenant1")).
Proof.
  split; [reflexivity|].
  apply (name_validation_idempotent ACITenant (Py.s "ACITestTenant1")).
  reflexivity.
Defined.

End NamingRules.

Section DescriptionRule.
Import Models Validators.

Lemma description_accepts (cls : char_class) (e : Entity) (v : Py.str) :
  accepts (description_rule cls e) v = true <->
  List.length v <= 256 /\
  Forall (fun c => class_matches cls c = true) v.
Proof.
  rewrite accepts_spec. unfold regex_search; simpl.
  rewrite match_repeat_spec, forallb_forall, Forall_forall.
  destruct v; simpl; split; intros H.
  - split; [lia | intros c []].
  - now left.
  - destruct H as [[H _] | [_ H]]; [discriminate | ]. split; [lia | tauto].
  - right. split; [discriminate | ]. split; [lia | tauto].
Qed.

(** A rule over fewer characters accepts fewer descriptions. *)
Lemma description_rule_mono (cls cls' : char_class) (e : Entity)
  (v : Py.str) :
  (forall c, class_matches cls c = true -> class_matches cls' c = true) ->
  accepts (description_rule cls e) v = true ->
  accepts (description_rule cls' e) v = true.
Proof.
  intros Hsub. rewrite !description_accepts, !Forall_forall.
  intros [Hl Hall]. split; [exact Hl|]. intros c Hc. now apply Hsub, Hall.
Qed.



End DescriptionRule.

(** ** Search indexes *)
Section SearchFacts.
Import Models Search.

Lemma ranks_above_intro (idx : SearchIndex) (f g : string) (wf wg : nat) :
  weight_of (fields idx) f = Some wf ->
  weight_of (fields idx) g = Some wg ->
  wf < wg -> ranks_above idx f g.
Proof. intros Hf Hg Hlt. exists wf, wg. auto. Qed.

(** C8. There is one search index for each of the six entities; the
    fields of every index are exactly name with weight 100, name_alias
    with weight 300 and description with weight 500, so that (a lower
    weight ranking higher) name ranks above the two other fields and
    description below the two other fields. *)
Theorem search_fields_weights :
  map model registry =
    [ACITenant; ACIAppProfile; ACIVRF; ACIBridgeDomain;
     ACIBridgeDomainSubnet; ACIEndpointGroup] /\
  Forall (fun idx =>
            fields idx =
              [("name", 100); ("name_alias", 300); ("description", 500)] /\
            ranks_above idx "name" "name_alias" /\
            ranks_above idx "name" "description" /\
            ranks_above idx "name_alias" "description")
         registry.
Proof.
  split; [reflexivity|].
  unfold registry.
  repeat (apply Forall_cons || apply Forall_nil);
    (split; [reflexivity|]);
    repeat split;
    eapply ranks_above_intro; try reflexivity; simpl; lia.
Qed.

(** C10, at the index of the VRF.  Five of the six indexes display the
    three fields that they index; [ACIVRFIndex] displays "alias", which
    is not a field of the index, and does not display "name_alias". *)
Theorem vrf_index_displays_alias :
  map displays_indexed_fields registry =
    [true; true; false; true; true; true] /\
  In "alias" (display_attrs ACIVRFIndex) /\
  ~ In "name_alias" (display_attrs ACIVRFIndex) /\
  In "name_alias" (indexed_names ACIVRFIndex) /\
  ~ In "alias" (indexed_names ACIVRFIndex).
Proof.
  split; [reflexivity|]. simpl.
  repeat split; try tauto; intros H;
    repeat (destruct H as [H | H]; [discriminate H | ]); exact H.
Qed.

End SearchFacts.

(** ** Validation and saving of forms *)
Section FormFacts.
Import Models Validators Django.

Lemma str_eqb_eq (a b : Py.str) : Py.str_eqb a b = true <-> a = b.
Proof.
  unfold Py.str_eqb. destruct (list_eq_dec N.eq_dec a b); split; intros H;
    auto; discriminate || contradiction.
Qed.

Lemma mem_In (v : Py.str) (l : list Py.str) : Py.mem v l = true <-> In v l.
Proof.
  unfold Py.mem. rewrite existsb_exists. split.
  - intros [x [Hin Heq]]. apply str_eqb_eq in Heq. now subst.
  - intros Hin. exists v. split; [exact Hin | now apply str_eqb_eq].
Qed.

Lemma field_errors_In (st : Store) (fs : list Field) (data : QueryDict)
  (n m : string) :
  In (n, m) (field_errors st fs data) <->
  exists f, In f fs /\ name f = n /\ clean st f data = Invalid m.
Proof.
  unfold field_errors. rewrite in_flat_map. split.
  - intros [f [Hf Hin]]. exists f. split; [exact Hf|].
    destruct (clean st f data) as [v|m']; simpl in Hin; [contradiction|].
    destruct Hin as [Heq|[]]. inversion Heq. auto.
  - intros [f [Hf [Hn Hc]]]. exists f. split; [exact Hf|].
    rewrite Hc. subst n. now left.
Qed.

Lemma field_errors_nil (st : Store) (fs : list Field) (data : QueryDict) :
  field_errors st fs data = [] <->
  forall f, In f fs -> exists v, clean st f data = Ok v.
Proof.
  split.
  - intros Hnil f Hf. destruct (clean st f data) as [v|m] eqn:Hc.
    + now exists v.
    + assert (Hin : In (name f, m) (field_errors st fs data))
        by (apply field_errors_In; eauto).
      rewrite Hnil in Hin. destruct Hin.
  - intros Hall. destruct (field_errors st fs data) as [|[n m] rest] eqn:He;
      [reflexivity|].
    assert (Hin : In (n, m) (field_errors st fs data))
      by (rewrite He; now left).
    apply field_errors_In in Hin. destruct Hin as [f [Hf [_ Hc]]].
    destruct (Hall f Hf) as [v Hv]. congruence.
Qed.

Lemma attr_cleaned_data (st : Store) (fs : list Field) (data : QueryDict)
  (f : Field) (v : cleaned) :
  NoDup (map name fs) -> In f fs -> clean st f data = Ok v ->
  attr (cleaned_data st fs data) (name f) = Some v.
Proof.
  induction fs as [|g rest IH]; simpl; intros Hnd Hin Hc; [contradiction|].
  inversion Hnd as [|? ? Hnotin Hnd']; subst.
  destruct Hin as [->|Hin].
  - rewrite Hc. simpl. now rewrite String.eqb_refl.
  - assert (Hne : name f <> name g).
    { intros Heq. apply Hnotin. rewrite <- Heq. now apply in_map. }
    destruct (clean st g data); simpl.
    + destruct (String.eqb_spec (name f) (name g)); [contradiction|].
      now apply IH.
    + now apply IH.
Qed.

Lemma attr_filter (p : string * cleaned -> bool)
  (l : list (string * cleaned)) (key : string) (v : cleaned) :
  attr l key = Some v -> p (key, v) = true ->
  attr (filter p l) key = Some v.
Proof.
  induction l as [|[k w] rest IH]; simpl; intros Ha Hp; [discriminate|].
  destruct (String.eqb_spec key k) as [->|Hne].
  - inversion Ha; subst. rewrite Hp. simpl. now rewrite String.eqb_refl.
  - destruct (p (k, w)); simpl; [|now apply IH].
    destruct (String.eqb_spec key k); [contradiction|]. now apply IH.
Qed.

Lemma find_app {A : Type} (p : A -> bool) (l l' : list A) :
  find p (l ++ l')%list =
  match find p l with Some x => Some x | None => find p l' end.
Proof.
  induction l as [|a l IH]; simpl; [reflexivity|].
  destruct (p a); [reflexivity | exact IH].
Qed.

Lemma objects_all_app (st st' : Store) (m : Model) :
  objects_all (st ++ st')%list m
  = (objects_all st m ++ objects_all st' m)%list.
Proof. unfold objects_all. apply filter_app. Qed.

Lemma queryset_get_grows (st st' : Store) (m : Model) (k : N) :
  queryset_get st m k <> None -> queryset_get (st ++ st')%list m k <> None.
Proof.
  unfold queryset_get. rewrite objects_all_app, find_app.
  destruct (find _ (objects_all st m)); [discriminate | tauto].
Qed.

Lemma queryset_get_In (st : Store) (m : Model) (k : N) (o : Obj) :
  queryset_get st m k = Some o ->
  In o (objects_all st m) /\ obj_pk o = k.
Proof.
  unfold queryset_get. intros H. apply find_some in H.
  destruct H as [Hin Hk]. split; [exact Hin | now apply N.eqb_eq].
Qed.

(** The primary key given to a new object is not in use. *)
Lemma next_pk_fresh (st : Store) (m : Model) :
  queryset_get st m (next_pk st m) = None.
Proof.
  unfold queryset_get, next_pk.
  assert (Hle : forall l o, In o l ->
            (obj_pk o <= fold_right N.max 0 (map obj_pk l))%N).
  { induction l as [|a l IH]; simpl; intros o [].
    - subst. lia.
    - specialize (IH o H). lia. }
  destruct (find _ _) as [o|] eqn:Hf; [|reflexivity].
  apply find_some in Hf. destruct Hf as [Hin Hk].
  apply N.eqb_eq in Hk. specialize (Hle _ _ Hin). lia.
Qed.

(** A required relation accepts only the key of a stored object. *)
Lemma clean_required_relation (st : Store) (f : Field) (data : QueryDict)
  (m : Model) (qp ip : list (string * string)) (v : cleaned) :
  ftype f = DynamicModelChoiceField m qp ip -> required f = true ->
  clean st f data = Ok v ->
  exists k, v = CObj m k /\ queryset_get st m k <> None.
Proof.
  intros Ht Hr. unfold clean. rewrite Ht, Hr.
  destruct (text_value _ _); [discriminate|].
  destruct (Py.parse_int _) as [k|]; [|discriminate].
  destruct (queryset_get st m k) eqn:Hq; [|discriminate].
  intros H. inversion H. exists k. split; [reflexivity|]. rewrite Hq. discriminate.
Qed.

End FormFacts.

(** ** Forwarding methods of a Bridge Domain *)
Section ForwardingMethods.
Import Models Validators Django Forms.

Lemma clean_optional_choice (st : Store) (f : Field) (data : QueryDict)
  (choices : list Py.str) :
  ftype f = ChoiceField choices -> required f = false ->
  let v := text_value data (name f) in
  (v = [] \/ In v choices -> clean st f data = Ok (CStr v)) /\
  (~ (v = [] \/ In v choices) -> clean st f data = Invalid invalid_choice_msg).
Proof.
  intros Ht Hr v. unfold clean. rewrite Ht, Hr. fold v.
  destruct v as [|c rest] eqn:Hv.
  - split; [reflexivity | tauto].
  - destruct (Py.mem (c :: rest) choices) eqn:Hm.
    + split; [reflexivity|]. apply mem_In in Hm. tauto.
    + split; [|reflexivity]. intros [H|H]; [discriminate|].
      apply mem_In in H. congruence.
Qed.



End ForwardingMethods.

(** ** Relations of the saved objects *)
Section RelationFacts.
Import Models Validators Django Forms Relations.

Lemma save_cases (st : Store) (form : ModelForm) (data : QueryDict) :
  (field_errors st (fields form) data = [] /\
   save st form data =
     ((st ++ [new_instance st form data])%list,
      Saved (obj_pk (new_instance st form data)))) \/
  (field_errors st (fields form) data <> [] /\
   save st form data =
     (st, ValidationError (field_errors st (fields form) data))).
Proof.
  unfold save. destruct (field_errors st (fields form) data) eqn:He.
  - left. now split.
  - right. split; [discriminate | reflexivity].
Qed.

Lemma required_relation_persisted (st : Store) (form : ModelForm)
  (data : QueryDict) (f : Field) (m : Model) (qp ip : list (string * string)) :
  NoDup (map name (fields form)) -> In f (fields form) ->
  ftype f = DynamicModelChoiceField m qp ip -> required f = true ->
  existsb (String.eqb (name f)) (Meta_fields form) = true ->
  field_errors st (fields form) data = [] ->
  exists k, attr (attrs (new_instance st form data)) (name f)
              = Some (CObj m k) /\
            queryset_get st m k <> None.
Proof.
  intros Hnd Hin Ht Hr Hmeta Herr.
  destruct (proj1 (field_errors_nil _ _ _) Herr f Hin) as [v Hv].
  destruct (clean_required_relation _ _ _ _ _ _ _ Ht Hr Hv) as [k [-> Hq]].
  exists k. split; [|exact Hq].
  simpl. unfold construct_instance. apply attr_filter.
  - now apply attr_cleaned_data.
  - simpl. rewrite Hmeta. now destruct (get data (name f)).
Qed.

Lemma belongs_to_grows (st st' : Store) (o : Obj) (key : string)
  (m : Model) :
  (exists! k, belongs_to st o key m k) ->
  exists! k, belongs_to (st ++ st')%list o key m k.
Proof.
  intros [k [[Ha Hq] _]]. exists k. split.
  - split; [exact Ha | now apply queryset_get_grows].
  - intros k' [Ha' _]. congruence.
Qed.

Lemma entity_form_NoDup (c : ChoiceSets) (dc : char_class) (e : Entity) :
  NoDup (map name (fields (entity_form c dc e))).
Proof.
  destruct e; simpl;
    repeat (apply NoDup_cons; [simpl; intuition discriminate|]);
    apply NoDup_nil.
Qed.

Lemma save_preserves_referential (c : ChoiceSets) (dc : char_class)
  (e : Entity) (st : Store) (data : QueryDict) :
  referential st -> referential (fst (save st (entity_form c dc e) data)).
Proof.
  intros [Hbd Hvrf].
  destruct (save_cases st (entity_form c dc e) data) as [[Herr ->] | [_ ->]];
    simpl; [|now split].
  pose proof (entity_form_NoDup c dc e) as Hnd.
  split; intros o; rewrite objects_all_app, in_app_iff; intros [Hold | Hnew].
  - apply belongs_to_grows. now apply Hbd.
  - destruct e; simpl in Hnew; try contradiction.
    destruct Hnew as [<- | []].
    destruct (required_relation_persisted st _ data
                ACIBridgeDomainForm.aci_vrf (ACI ACIVRF)
                [("aci_tenant_id", "$aci_tenant")] [] Hnd) as [k [Ha Hq]];
      try reflexivity; try exact Herr.
    { simpl. tauto. }
    exists k. split.
    + split; [exact Ha | now apply queryset_get_grows].
    + intros k' [Ha' _]. simpl in Ha, Ha'. congruence.
  - apply belongs_to_grows. now apply Hvrf.
  - destruct e; simpl in Hnew; try contradiction.
    destruct Hnew as [<- | []].
    destruct (required_relation_persisted st _ data
                ACIVRFForm.aci_tenant (ACI ACITenant)
                [("nb_tenant_id", "$nb_tenant")] [] Hnd) as [k [Ha Hq]];
      try reflexivity; try exact Herr.
    { simpl. tauto. }
    exists k. split.
    + split; [exact Ha | now apply queryset_get_grows].
    + intros k' [Ha' _]. simpl in Ha, Ha'. congruence.
Qed.

End RelationFacts.

(** ** A Bridge Domain and its VRF *)
Section BridgeDomainVRF.
Import Models Validators Django Forms Relations.

Lemma referential_tenant (st : Store) (o : Obj) :
  referential st -> In o (objects_all st (ACI ACIBridgeDomain)) ->
  exists k vrf t,
    attr (attrs o) "aci_vrf" = Some (CObj (ACI ACIVRF) k) /\
    queryset_get st (ACI ACIVRF) k = Some vrf /\
    attr (attrs vrf) "aci_tenant" = Some (CObj (ACI ACITenant) t) /\
    queryset_get st (ACI ACITenant) t <> None.
Proof.
  intros [Hbd Hvrf] Hin.
  destruct (Hbd o Hin) as [k [[Ha Hq] _]].
  destruct (queryset_get st (ACI ACIVRF) k) as [vrf|] eqn:Hg; [|tauto].
  destruct (queryset_get_In _ _ _ _ Hg) as [Hv _].
  destruct (Hvrf vrf Hv) as [t [[Ht Hqt] _]].
  exists k, vrf, t. auto.
Qed.

(** C4. Submitting the Bridge Domain form without a VRF is rejected with
    a validation error on the field aci_vrf, and nothing is stored.  In a
    store where every Bridge Domain belongs to one VRF and every VRF to
    one Tenant, this still holds after a submission of the form, whatever
    its outcome: every stored Bridge Domain has exactly one VRF, which is
    stored and belongs to a stored Tenant. *)
Theorem bridge_domain_requires_vrf (c : ChoiceSets) (dc : char_class)
  (st : Store) (data : QueryDict) :
  referential st ->
  let form := ACIBridgeDomainForm.form c dc in
  (text_value data "aci_vrf" = [] ->
     exists errors,
       save st form data = (st, ValidationError errors) /\
       In ("aci_vrf", required_msg) errors) /\
  (forall o, In o (objects_all (fst (save st form data))
                     (ACI ACIBridgeDomain)) ->
     (exists! k, belongs_to (fst (save st form data)) o "aci_vrf"
                   (ACI ACIVRF) k) /\
     exists k vrf t,
       attr (attrs o) "aci_vrf" = Some (CObj (ACI ACIVRF) k) /\
       queryset_get (fst (save st form data)) (ACI ACIVRF) k = Some vrf /\
       attr (attrs vrf) "aci_tenant" = Some (CObj (ACI ACITenant) t) /\
       queryset_get (fst (save st form data)) (ACI ACITenant) t <> None).
Proof.
  intros Href form. split.
  - intros Hempty.
    assert (Hc : clean st ACIBridgeDomainForm.aci_vrf data
                 = Invalid required_msg).
    { unfold clean. simpl. simpl in Hempty. now rewrite Hempty. }
    assert (Hin : In ("aci_vrf", required_msg)
                     (field_errors st (fields form) data)).
    { apply field_errors_In. exists ACIBridgeDomainForm.aci_vrf.
      split; [simpl; tauto | now split]. }
    exists (field_errors st (fields form) data). split; [|exact Hin].
    destruct (save_cases st form data) as [[Hnil _] | [_ Hs]]; [|exact Hs].
    rewrite Hnil in Hin. destruct Hin.
  - pose proof (save_preserves_referential c dc ACIBridgeDomain st data Href)
      as Href'.
    intros o Ho. split.
    + now apply (proj1 Href').
    + now apply referential_tenant.
Qed.

Lemma sample_store_referential : referential sample_store.
Proof.
  split; intros o; simpl; intros Hin; [contradiction|].
  destruct Hin as [<- | []]. exists 1%N. split.
  - split; [reflexivity | discriminate].
  - intros k' [Ha _]. simpl in Ha. congruence.
Qed.

Lemma bridge_domain_requires_vrf_witness :
  snd (save sample_store
         (ACIBridgeDomainForm.form mentioned_choices printable_ascii)
         sample_bridge_domain) = Saved 1 /\
  forall o,
    In o (objects_all
            (fst (save sample_store
                    (ACIBridgeDomainForm.form mentioned_choices
                       printable_ascii) sample_bridge_domain))
            (ACI ACIBridgeDomain)) ->
    exists! k,
      belongs_to
        (fst (save sample_store
                (ACIBridgeDomainForm.form mentioned_choices printable_ascii)
                sample_bridge_domain)) o "aci_vrf" (ACI ACIVRF) k.
Proof.
  split; [reflexivity|].
  intros o Ho.
  apply (bridge_domain_requires_vrf mentioned_choices printable_ascii
           sample_store sample_bridge_domain sample_store_referential).
  exact Ho.
Defined.

End BridgeDomainVRF.

(** ** Saved objects *)
Section SaveFacts.
Import Models Validators Django Forms.

Lemma entity_form_model (c : ChoiceSets) (dc : char_class) (e : Entity) :
  form_model (entity_form c dc e) = e.
Proof. destruct e; reflexivity. Qed.

Lemma queryset_get_new (st : Store) (o : Obj) :
  obj_pk o = next_pk st (obj_model o) ->
  queryset_get (st ++ [o])%list (obj_model o) (obj_pk o) = Some o.
Proof.
  intros Hk. unfold queryset_get. rewrite objects_all_app, find_app.
  pose proof (next_pk_fresh st (obj_model o)) as Hfresh.
  unfold queryset_get in Hfresh. rewrite <- Hk in Hfresh. rewrite Hfresh.
  unfold objects_all, Model_eqb. simpl.
  destruct (Model_eq_dec (obj_model o) (obj_model o)); [|contradiction].
  simpl. now rewrite N.eqb_refl.
Qed.

(** The name with spaces of the tests is rejected on the field name, and
    the store is as before. *)
Example tenant_name_with_spaces :
  save sample_store (entity_form mentioned_choices printable_ascii ACITenant)
    [("name", Py.s "ACI Test Tenant 1")]
  = (sample_store, ValidationError [("name", "Enter a valid value.")]).
Proof. reflexivity. Qed.

End SaveFacts.

(** ** Gateway of a subnet *)
Section Gateway.
Import Models Validators Django Forms Relations.

(** C6, as the code has it.  The gateway of a subnet is required and is
    accepted exactly when it is the key of a stored IP address; the
    result depends on no other value of the submission, so the VRF that
    was selected plays no part in it. *)
Theorem gateway_any_ip_address (st : Store) (data : QueryDict) :
  let f := ACIBridgeDomainSubnetForm.gateway_ip_address in
  (forall v, clean st f data = Ok v <->
     exists k, Py.parse_int (text_value data "gateway_ip_address") = Some k /\
               queryset_get st IPAddress k <> None /\
               v = CObj IPAddress k) /\
  (text_value data "gateway_ip_address" = [] ->
     clean st f data = Invalid required_msg) /\
  (forall data', get data' "gateway_ip_address"
                   = get data "gateway_ip_address" ->
     clean st f data' = clean st f data).
Proof.
  cbv zeta. split; [|split].
  - intros v. unfold clean.
    change (ftype ACIBridgeDomainSubnetForm.gateway_ip_address)
      with (DynamicModelChoiceField IPAddress
              [("present_in_vrf_id", "$nd_vrf")] []).
    change (required ACIBridgeDomainSubnetForm.gateway_ip_address) with true.
    change (name ACIBridgeDomainSubnetForm.gateway_ip_address)
      with "gateway_ip_address".
    destruct (text_value data "gateway_ip_address") as [|ch rest] eqn:Hv.
    + split; [discriminate | intros [k [H _]]; discriminate].
    + destruct (Py.parse_int (ch :: rest)) as [k|].
      * destruct (queryset_get st IPAddress k) eqn:Hq; split.
        -- intros H. inversion H. exists k. rewrite Hq.
           repeat split; discriminate.
        -- intros [k' [Hk [_ Hvk]]]. inversion Hk; now subst.
        -- discriminate.
        -- intros [k' [Hk [Hn _]]]. inversion Hk; subst. now rewrite Hq in Hn.
      * split; [discriminate | intros [k [H _]]; discriminate].
  - intros He. unfold clean. simpl. simpl in He. now rewrite He.
  - intros data' He. unfold clean, text_value. simpl. now rewrite He.
Qed.

(** C6, counterexample.  The IP address 7 is not in the VRF 1; the
    submission that selects the VRF 1 and the gateway 7 is valid, and the
    subnet is stored with this gateway. *)
Lemma gateway_outside_vrf_saved :
  present_in_vrf subnet_store 7 1 = false /\
  get subnet_outside_vrf "nb_vrf" = Some (Py.s "1") /\
  get subnet_outside_vrf "gateway_ip_address" = Some (Py.s "7") /\
  snd (save subnet_store (ACIBridgeDomainSubnetForm.form printable_ascii)
         subnet_outside_vrf) = Saved 1 /\
  attr (attrs (new_instance subnet_store
                 (ACIBridgeDomainSubnetForm.form printable_ascii)
                 subnet_outside_vrf)) "gateway_ip_address"
    = Some (CObj IPAddress 7).
Proof. repeat split; reflexivity. Qed.

(** The query parameter of the gateway takes its value from "nd_vrf",
    which is the name of no field of the form; the field of the VRF is
    "nb_vrf". *)
Lemma gateway_query_source :
  ACIBridgeDomainSubnetForm.dynamic_sources
    ACIBridgeDomainSubnetForm.gateway_ip_address = ["nd_vrf"] /\
  existsb (String.eqb "nd_vrf")
    (map name (fields (ACIBridgeDomainSubnetForm.form printable_ascii)))
    = false /\
  existsb (String.eqb "nb_vrf")
    (map name (fields (ACIBridgeDomainSubnetForm.form printable_ascii)))
    = true.
Proof. repeat split; reflexivity. Qed.

End Gateway.

(** ** What the forms of tenant_networks.py validate and store *)
Section FormCoverage.
Import Models Validators Django Forms Relations FormInfo.

Lemma cleaned_data_In (st : Store) (fs : list Field) (data : QueryDict)
  (key : string) (v : cleaned) :
  In (key, v) (cleaned_data st fs data) <->
  exists f, In f fs /\ name f = key /\ clean st f data = Ok v.
Proof.
  unfold cleaned_data. rewrite in_flat_map. split.
  - intros [f [Hf Hin]]. exists f. split; [exact Hf|].
    destruct (clean st f data) as [w|m]; simpl in Hin; [|contradiction].
    destruct Hin as [Heq|[]]. inversion Heq. auto.
  - intros [f [Hf [Hn Hc]]]. exists f. split; [exact Hf|].
    rewrite Hc. subst key. now left.
Qed.

Lemma attr_In (l : list (string * cleaned)) (key : string) (v : cleaned) :
  attr l key = Some v -> In (key, v) l.
Proof.
  induction l as [|[k w] rest IH]; simpl; [discriminate|].
  destruct (String.eqb_spec key k) as [->|_].
  - intros H. inversion H. now left.
  - intros H. right. now apply IH.
Qed.

Lemma attr_filter_inv (p : string * cleaned -> bool)
  (l : list (string * cleaned)) (key : string) (v : cleaned) :
  attr (filter p l) key = Some v -> In (key, v) l /\ p (key, v) = true.
Proof.
  intros H. apply attr_In in H. apply filter_In in H. exact H.
Qed.

Lemma existsb_eqb_In (key : string) (l : list string) :
  existsb (String.eqb key) l = true <-> In key l.
Proof.
  rewrite existsb_exists. split.
  - intros [x [Hin Heq]]. apply String.eqb_eq in Heq. now subst.
  - intros Hin. exists key. split; [exact Hin | apply String.eqb_refl].
Qed.

(** What a form stores.  An attribute of the saved instance is the cleaned
    value of the field of that name, the name is listed in [Meta.fields],
    and the value was submitted or is not empty; and every such value is
    stored. *)
Lemma stored_attribute (form : ModelForm) (st : Store) (data : QueryDict)
  (key : string) (v : cleaned) :
  NoDup (map name (fields form)) ->
  attr (attrs (new_instance st form data)) key = Some v <->
  In key (Meta_fields form) /\
  (exists f, In f (fields form) /\ name f = key /\ clean st f data = Ok v) /\
  (get data key = None -> is_empty_value v = false).
Proof.
  intros Hnd. simpl. unfold construct_instance. split.
  - intros H. apply attr_filter_inv in H. destruct H as [Hin Hp].
    simpl in Hp. apply andb_true_iff in Hp. destruct Hp as [Hm He].
    split; [now apply existsb_eqb_In|].
    split; [now apply cleaned_data_In|].
    intros Hg. rewrite Hg in He. now apply negb_true_iff in He.
  - intros [Hm [[f [Hf [<- Hc]]] He]]. apply attr_filter.
    + now apply attr_cleaned_data.
    + simpl. apply existsb_eqb_In in Hm. rewrite Hm. simpl.
      destruct (get data (name f)); [reflexivity|].
      now rewrite He.
Qed.

Lemma clean_required_empty (st : Store) (f : Field) (data : QueryDict) :
  required f = true -> text_value data (name f) = [] ->
  clean st f data = Invalid required_msg.
Proof.
  intros Hr He. unfold clean. rewrite Hr.
  destruct (ftype f); rewrite ?He; try reflexivity.
  unfold CheckboxInput_value. unfold text_value in He.
  destruct (get data (name f)) as [w|]; [subst w|]; reflexivity.
Qed.

(** X1. The required fields of the three forms are the name and the
    relations declared without [required=False]: the Tenant of a VRF, the
    VRF of a Bridge Domain, the Bridge Domain and the gateway of a subnet.
    A submission in which one of them is missing or empty ends in a
    validation error with "This field is required." on that field, and
    the store is unchanged. *)
Theorem required_fields_enforced (c : ChoiceSets) (dc : char_class)
  (st : Store) (data : QueryDict) :
  map required_names (network_forms c dc) =
    [["name"; "aci_tenant"]; ["name"; "aci_vrf"];
     ["name"; "aci_bridge_domain"; "gateway_ip_address"]] /\
  Forall (fun form =>
            forall f, In f (fields form) -> required f = true ->
                      text_value data (name f) = [] ->
              In (name f, required_msg)
                 (field_errors st (fields form) data) /\
              save st form data =
                (st, ValidationError (field_errors st (fields form) data)))
         (network_forms c dc).
Proof.
  split; [reflexivity|].
  apply Forall_forall. intros form _ f Hf Hr He.
  assert (Hin : In (name f, required_msg)
                   (field_errors st (fields form) data)).
  { apply field_errors_In. exists f. split; [exact Hf|].
    split; [reflexivity | now apply clean_required_empty]. }
  split; [exact Hin|].
  destruct (save_cases st form data) as [[Hnil _] | [_ Hs]]; [|exact Hs].
  rewrite Hnil in Hin. destruct Hin.
Qed.

(** X2. Whatever is submitted, a relation that a form stores is the key
    of an object of the queryset of its field that is in the store: the
    forms never store a reference to an object that does not exist. *)
Theorem stored_relations_exist (c : ChoiceSets) (dc : char_class)
  (e : Entity) (st : Store) (data : QueryDict) (key : string) (m : Model)
  (k : N) :
  attr (attrs (new_instance st (entity_form c dc e) data)) key
    = Some (CObj m k) ->
  queryset_get st m k <> None /\
  exists f qp ip, In f (fields (entity_form c dc e)) /\ name f = key /\
                  ftype f = DynamicModelChoiceField m qp ip.
Proof.
  intros H. apply stored_attribute in H; [|apply entity_form_NoDup].
  destruct H as [_ [[f [Hf [Hn Hc]]] _]].
  unfold clean in Hc.
  destruct (ftype f) as [r| | |choices|m' qp ip] eqn:Ht.
  - destruct (Py.strip _); [destruct (required f)|];
      try discriminate; unfold as_cleaned in Hc;
      destruct (validate r _); discriminate.
  - destruct (Py.strip _); [destruct (required f)|]; discriminate.
  - destruct (required f && _); discriminate.
  - destruct (text_value _ _); [destruct (required f)|destruct (Py.mem _ _)];
      discriminate.
  - destruct (text_value _ _); [destruct (required f); discriminate|].
    destruct (Py.parse_int _) as [k'|]; [|discriminate].
    destruct (queryset_get st m' k') eqn:Hq; [|discriminate].
    inversion Hc; subst. split; [rewrite Hq; discriminate|].
    exists f, qp, ip. auto.
Qed.

Lemma stored_relations_exist_witness :
  queryset_get sample_store (ACI ACIVRF) 1 <> None /\
  exists f qp ip,
    In f (fields (entity_form mentioned_choices printable_ascii
                    ACIBridgeDomain)) /\
    name f = "aci_vrf" /\
    ftype f = DynamicModelChoiceField (ACI ACIVRF) qp ip.
Proof.
  apply (stored_relations_exist mentioned_choices printable_ascii
           ACIBridgeDomain sample_store sample_bridge_domain).
  reflexivity.
Defined.

Lemma stored_attribute_listed (form : ModelForm) (st : Store)
  (data : QueryDict) (key : string) (v : cleaned) :
  attr (attrs (new_instance st form data)) key = Some v ->
  In key (Meta_fields form).
Proof.
  simpl. unfold construct_instance. intros H.
  apply attr_filter_inv in H. destruct H as [_ Hp]. simpl in Hp.
  apply andb_true_iff in Hp. now apply existsb_eqb_In.
Qed.

(** X4. The fields that a form declares and [Meta.fields] does not list
    are validated and never stored.  In the VRF form and the subnet form
    these are the fields that only narrow other choices; in the Bridge
    Domain form they include "nb_tenant" and "limit_ip_learn_to_subnet",
    so that the tenant selected in that form is not stored. *)
Theorem unlisted_fields_not_stored (c : ChoiceSets) (dc : char_class)
  (st : Store) (data : QueryDict) :
  map unlisted_names (network_forms c dc) =
    [["nb_tenant_group"];
     ["aci_tenant"; "nb_tenant_group"; "nb_tenant";
      "limit_ip_learn_to_subnet"];
     ["aci_tenant"; "nb_vrf"; "nb_tenant_group"]] /\
  Forall (fun form =>
            forall key, In key (unlisted_names form) ->
                        attr (attrs (new_instance st form data)) key = None)
         (network_forms c dc).
Proof.
  split; [reflexivity|].
  apply Forall_forall. intros form _ key Hk.
  unfold unlisted_names in Hk. apply in_map_iff in Hk.
  destruct Hk as [f [<- Hf]]. apply filter_In in Hf. destruct Hf as [_ Hn].
  apply negb_true_iff in Hn.
  destruct (attr _ _) as [v|] eqn:Ha; [|reflexivity].
  apply stored_attribute_listed, existsb_eqb_In in Ha. congruence.
Qed.

(** X6. The two choice fields of the VRF form, the enforcement direction
    and the enforcement preference, are optional: each accepts the empty
    value and the values of its choice set, and rejects every other
    string as an invalid choice. *)
Theorem vrf_enforcement_choices (c : ChoiceSets) (dc : char_class)
  (st : Store) (data : QueryDict) :
  choice_names (ACIVRFForm.form c dc) =
    ["pc_enforcement_direction"; "pc_enforcement_preference"] /\
  map choices_of [ACIVRFForm.pc_enforcement_direction c;
                  ACIVRFForm.pc_enforcement_preference c] =
    [VRFPCEnforcementDirectionChoices c;
     VRFPCEnforcementPreferenceChoices c] /\
  Forall (fun f =>
            let v := text_value data (name f) in
            (v = [] \/ In v (choices_of f) ->
               clean st f data = Ok (CStr v)) /\
            (~ (v = [] \/ In v (choices_of f)) ->
               clean st f data = Invalid invalid_choice_msg))
         [ACIVRFForm.pc_enforcement_direction c;
          ACIVRFForm.pc_enforcement_preference c].
Proof.
  split; [reflexivity|]. split; [reflexivity|].
  repeat (apply Forall_cons || apply Forall_nil);
    apply clean_optional_choice; reflexivity.
Qed.

(** X7. The checkboxes of the three forms never fail validation,
    whatever is submitted: the errors of a submission come from the text
    fields, the relations and the choice fields only. *)
Theorem checkboxes_never_fail (c : ChoiceSets) (dc : char_class)
  (st : Store) (data : QueryDict) :
  map (fun form => map name (filter can_fail (fields form)))
      (network_forms c dc) =
    [["name"; "name_alias"; "description"; "aci_tenant"; "nb_tenant_group";
      "nb_tenant"; "nb_vrf"; "pc_enforcement_direction";
      "pc_enforcement_preference"; "comments"];
     ["name"; "name_alias"; "description"; "aci_tenant"; "aci_vrf";
      "nb_tenant_group"; "nb_tenant"; "multi_destination_flooding";
      "unknown_ipv4_multicast"; "unknown_ipv6_multicast";
      "unknown_unicast"; "comments"];
     ["name"; "name_alias"; "description"; "aci_tenant"; "aci_vrf";
      "aci_bridge_domain"; "nb_vrf"; "gateway_ip_address";
      "nb_tenant_group"; "nb_tenant"; "comments"]] /\
  Forall (fun form =>
            forall n m, In (n, m) (field_errors st (fields form) data) ->
                        exists f, In f (fields form) /\ name f = n /\
                                  can_fail f = true)
         (network_forms c dc).
Proof.
  split; [reflexivity|].
  apply Forall_forall. intros form _ n m Hin.
  apply field_errors_In in Hin. destruct Hin as [f [Hf [Hn Hc]]].
  exists f. split; [exact Hf | split; [exact Hn|]].
  unfold can_fail. unfold clean in Hc.
  destruct (ftype f); try reflexivity.
  destruct (required f); [reflexivity | discriminate].
Qed.

End FormCoverage.

(** ** Defaults of the checkboxes *)
Section Defaults.
Import Models Validators Django Forms.






End Defaults.


(** ** Field sets, filter forms and references *)
Section LayoutFacts.
Import Models Django Forms Layout.

Lemma nodup_fixed_NoDup (l : list string) :
  nodup string_dec l = l -> NoDup l.
Proof. intros H. rewrite <- H. apply NoDup_nodup. Qed.

(** X8. In the three model forms, every item of a field set is the name
    of a field of the form, so that the host renders all of them; no name
    is listed twice; and the names of the form that no field set lists
    are "comments", which the host renders apart, and, in the Bridge
    Domain form, "limit_ip_learn_to_subnet". *)
Theorem model_form_field_sets (c : ChoiceSets)
  (dc : Validators.char_class) :
  Forall (fun p =>
            skipped (model_form_names (fst p)) (snd p) = [] /\
            render (model_form_names (fst p)) (snd p) = listed (snd p) /\
            NoDup (listed (snd p)))
         (model_form_layouts c dc) /\
  map (fun p => unlisted (model_form_names (fst p)) (snd p))
      (model_form_layouts c dc) =
    [["comments"]; ["comments"; "limit_ip_learn_to_subnet"]; ["comments"]].
Proof.
  split; [|reflexivity].
  unfold model_form_layouts.
  repeat (apply Forall_cons || apply Forall_nil);
    (split; [reflexivity | split; [reflexivity|]]);
    apply nodup_fixed_NoDup; reflexivity.
Qed.


(** X10. In the three model forms and the two filter forms, every
    reference [$name] of a query parameter or of an initial parameter
    names a field of the same form, with one exception: the gateway of
    the subnet form refers to "nd_vrf", and the form has no such field. *)
Theorem dynamic_references (c : ChoiceSets) (dc : Validators.char_class) :
  map References.dangling (network_forms c dc) =
    [[]; []; [("gateway_ip_address", "nd_vrf")]] /\
  map References.dangling_filter (FilterForms.filter_forms c) = [[]; []].
Proof. split; reflexivity. Qed.

End LayoutFacts.

(** ** Routes of the API *)
Section UrlFacts.
Import Urls.

Lemma strip_prefix_spec (prefix path rest : string) :
  strip_prefix prefix path = Some rest <-> path = prefix ++ rest.
Proof.
  revert path. induction prefix as [|a prefix IH]; intros path; simpl.
  - split; intros H; [now inversion H | now subst].
  - destruct path as [|b path']; [split; discriminate|].
    destruct (Ascii.eqb_spec a b) as [->|Hne].
    + rewrite IH. split; intros H; [now subst | now inversion H].
    + split; [discriminate | intros H; inversion H; congruence].
Qed.

Lemma first_slash (p1 p2 x y : string) :
  no_slash_no_dot p1 = true -> no_slash_no_dot p2 = true ->
  p1 ++ String "/" x = p2 ++ String "/" y -> p1 = p2 /\ x = y.
Proof.
  revert p2. induction p1 as [|a p1 IH]; intros [|b p2]; simpl;
    intros H1 H2 He.
  - inversion He. now split.
  - inversion He; subst. discriminate H2.
  - inversion He; subst. discriminate H1.
  - inversion He; subst.
    apply andb_true_iff in H1, H2. destruct H1 as [_ H1], H2 as [_ H2].
    destruct (IH p2 H1 H2 H3) as [-> ->]. now split.
Qed.

Lemma match_route_path (prefix path : string) (r : Route) :
  match_route prefix path = Some r ->
  exists rest, path = prefix ++ String "/" rest.
Proof.
  unfold match_route. destruct (strip_prefix prefix path) as [rem|] eqn:Hs;
    [|discriminate].
  apply strip_prefix_spec in Hs. destruct rem as [|ch rest]; [discriminate|].
  destruct (Ascii.eqb_spec ch "/") as [->|Hne].
  - intros _. now exists rest.
  - intros H. exfalso.
    destruct ch as [[] [] [] [] [] [] [] []]; try discriminate H.
    now apply Hne.
Qed.

Lemma registry_prefixes :
  Forall (fun pv => no_slash_no_dot (fst pv) = true) registry /\
  NoDup (map fst registry).
Proof.
  split.
  - repeat (apply Forall_cons || apply Forall_nil); reflexivity.
  - simpl. repeat (apply NoDup_cons; [simpl; intuition discriminate|]).
    apply NoDup_nil.
Qed.

Lemma NoDup_fst_functional {A : Type} (l : list (string * A)) (p : string)
  (v v' : A) :
  NoDup (map fst l) -> In (p, v) l -> In (p, v') l -> v = v'.
Proof.
  induction l as [|[q w] l IH]; simpl; intros Hnd H1 H2; [contradiction|].
  inversion Hnd as [|? ? Hn Hnd']; subst.
  destruct H1 as [H1|H1], H2 as [H2|H2].
  - congruence.
  - inversion H1; subst. exfalso. apply Hn.
    change p with (fst (p, v')). now apply in_map.
  - inversion H2; subst. exfalso. apply Hn.
    change p with (fst (p, v)). now apply in_map.
  - now apply IH.
Qed.

(** X11. A path matches the routes of at most one registration of the
    router: two registered prefixes with a route for the same path are
    the same registration, with the same view set and the same route.
    In particular "bridge-domains" and "bridge-domain-subnets" never
    answer for each other. *)
Theorem routes_unambiguous (path p1 p2 : string) (v1 v2 : ViewSet)
  (r1 r2 : Route) :
  In (p1, v1) registry -> In (p2, v2) registry ->
  match_route p1 path = Some r1 -> match_route p2 path = Some r2 ->
  p1 = p2 /\ v1 = v2 /\ r1 = r2.
Proof.
  intros H1 H2 M1 M2.
  destruct registry_prefixes as [Hslash Hnd].
  rewrite Forall_forall in Hslash.
  destruct (match_route_path _ _ _ M1) as [x Hx].
  destruct (match_route_path _ _ _ M2) as [y Hy].
  assert (Hp : p1 = p2).
  { rewrite Hx in Hy.
    now destruct (first_slash p1 p2 x y (Hslash _ H1) (Hslash _ H2) Hy). }
  subst p2. split; [reflexivity|]. split.
  - exact (NoDup_fst_functional registry p1 v1 v2 Hnd H1 H2).
  - congruence.
Qed.

Lemma routes_unambiguous_witness :
  "bridge-domain-subnets" = "bridge-domain-subnets" /\
  ACIBridgeDomainSubnetListViewSet = ACIBridgeDomainSubnetListViewSet /\
  Detail "12" = Detail "12".
Proof.
  apply (routes_unambiguous "bridge-domain-subnets/12/"
           "bridge-domain-subnets" "bridge-domain-subnets"
           ACIBridgeDomainSubnetListViewSet ACIBridgeDomainSubnetListViewSet
           (Detail "12") (Detail "12")).
  - simpl. tauto.
  - simpl. tauto.
  - reflexivity.
  - reflexivity.
Defined.

Lemma lookup_value_pk (pk : string) :
  no_slash_no_dot pk = true -> lookup_value (pk ++ "/") = Some pk.
Proof.
  induction pk as [|c pk IH]; simpl; intros H; [reflexivity|].
  apply andb_true_iff in H. destruct H as [H Hpk].
  apply andb_true_iff in H. destruct H as [Hs Hd].
  apply negb_true_iff in Hs, Hd. rewrite Hs, Hd, (IH Hpk). reflexivity.
Qed.

Lemma match_route_list (prefix : string) :
  match_route prefix (list_path prefix) = Some List.
Proof.
  unfold match_route, list_path.
  now rewrite (proj2 (strip_prefix_spec prefix (prefix ++ "/") "/") eq_refl).
Qed.

Lemma match_route_detail (prefix pk : string) :
  valid_pk pk = true ->
  match_route prefix (detail_path prefix pk) = Some (Detail pk).
Proof.
  intros Hv. unfold match_route, detail_path.
  rewrite (proj2 (strip_prefix_spec prefix (prefix ++ "/" ++ pk ++ "/")
                    ("/" ++ pk ++ "/")) eq_refl).
  destruct pk as [|c pk]; [discriminate|].
  pose proof (lookup_value_pk (String c pk) Hv) as Hl.
  cbn [append] in Hl. cbn [append]. cbv beta iota. now rewrite Hl.
Qed.

Lemma resolve_matching (routes : list (string * ViewSet)) (path p : string)
  (v : ViewSet) (r : Route) :
  Forall (fun pv => no_slash_no_dot (fst pv) = true) routes ->
  NoDup (map fst routes) -> In (p, v) routes ->
  match_route p path = Some r -> resolve routes path = Some (v, r).
Proof.
  induction routes as [|[q w] routes IH]; simpl; intros Hs Hnd Hin Hm;
    [contradiction|].
  inversion Hs as [|? ? Hq Hs']; subst.
  inversion Hnd as [|? ? Hn Hnd']; subst.
  destruct (match_route q path) as [r'|] eqn:Hq'.
  - destruct (match_route_path _ _ _ Hm) as [x Hx].
    destruct (match_route_path _ _ _ Hq') as [y Hy].
    assert (Hp : no_slash_no_dot p = true).
    { destruct Hin as [Hin|Hin]; [now inversion Hin; subst|].
      rewrite Forall_forall in Hs'. exact (Hs' _ Hin). }
    rewrite Hx in Hy. destruct (first_slash p q x y Hp Hq Hy) as [-> _].
    destruct Hin as [Hin|Hin].
    + inversion Hin; subst. congruence.
    + exfalso. apply Hn. change q with (fst (q, v)). now apply in_map.
  - destruct Hin as [Hin|Hin]; [inversion Hin; subst; congruence|].
    now apply IH.
Qed.

(** X12. Each registration answers at its own paths: for every
    registered prefix, below the root of the API of the plugin
    (api/plugins/aci/), the path [prefix/] resolves to the list route of
    its view set, and the path [prefix/pk/], for a key that is not empty
    and has no slash and no dot, resolves to the route of that object of
    the same view set. *)
Theorem routes_round_trip :
  api_root = "api/plugins/aci/" /\
  Forall (fun pv =>
            resolve_api (api_root ++ list_path (fst pv))
              = Some (snd pv, List) /\
            forall pk, valid_pk pk = true ->
              resolve_api (api_root ++ detail_path (fst pv) pk)
                = Some (snd pv, Detail pk))
         registry.
Proof.
  split; [reflexivity|].
  destruct registry_prefixes as [Hslash Hnd].
  apply Forall_forall. intros [p v] Hin. cbn [fst snd].
  assert (Hroot : forall path,
            resolve_api (api_root ++ path) = resolve registry path).
  { intros path. unfold resolve_api.
    now rewrite (proj2 (strip_prefix_spec api_root (api_root ++ path) path)
                   eq_refl). }
  split.
  - rewrite Hroot. apply (resolve_matching registry _ p); auto.
    apply match_route_list.
  - intros pk Hpk. rewrite Hroot. apply (resolve_matching registry _ p); auto.
    now apply match_route_detail.
Qed.

End UrlFacts.

(** ** Versions of the host that load the plugin *)
Section VersionFacts.
Import Config.

Lemma parsed_bounds :
  parse min_version
    = Some {| release := [4; 0; 0]; pre := Some (Beta, 2); dev := None |} /\
  parse max_version
    = Some {| release := [4; 0; 99]; pre := None; dev := None |}.
Proof. split; reflexivity. Qed.

(** X13. The plugin is loaded by the final releases 4.0.0 to 4.0.99 of
    the host and by no other final release; of the beta versions of
    4.0.0 it is loaded from beta 2 on. *)
Theorem supported_versions (major minor patch n : nat) :
  (validate (final major minor patch) = Some Accepted <->
     major = 4 /\ minor = 0 /\ patch <= 99) /\
  (validate {| release := [4; 0; 0]; pre := Some (Beta, n); dev := None |}
     = Some Accepted <-> 2 <= n).
Proof.
  destruct parsed_bounds as [Hlo Hhi].
  unfold validate. rewrite Hlo, Hhi. split.
  - unfold compare, final. cbn [release pre dev pre_rank dev_rank].
    change (strip_zeros [4; 0; 0]) with [4].
    change (strip_zeros [4; 0; 99]) with [4; 0; 99].
    destruct patch as [|p].
    + destruct minor as [|mi].
      * destruct major as [|[|[|[|[|m]]]]]; cbn;
          (split; [try discriminate; intros _; lia | intros H; try lia]);
          reflexivity.
      * destruct major as [|[|[|[|[|m]]]]]; cbn;
          (split; [try discriminate | intros H; lia]).
    + destruct minor as [|mi].
      * destruct major as [|[|[|[|[|m]]]]]; cbn;
          try (split; [discriminate | intros H; lia]).
        destruct (Nat.compare_spec p 98) as [He|Hl|Hg].
        -- replace (Nat.compare (S p) 99) with Eq
             by (symmetry; apply Nat.compare_eq_iff; lia).
           split; [intros _; lia | reflexivity].
        -- replace (Nat.compare (S p) 99) with Lt
             by (symmetry; apply Nat.compare_lt_iff; lia).
           split; [intros _; lia | reflexivity].
        -- replace (Nat.compare (S p) 99) with Gt
             by (symmetry; apply Nat.compare_gt_iff; lia).
           split; [discriminate | lia].
      * destruct major as [|[|[|[|[|m]]]]]; cbn;
          (split; [try discriminate | intros H; lia]).
  - unfold compare. cbn [release pre dev pre_rank dev_rank].
    change (strip_zeros [4; 0; 0]) with [4].
    change (strip_zeros [4; 0; 99]) with [4; 0; 99].
    cbn [compare_release Nat.compare compare_pair fst snd].
    destruct (Nat.compare_spec n 2) as [He|Hl|Hg].
    + split; [intros _; lia | reflexivity].
    + split; [discriminate | lia].
    + split; [intros _; lia | reflexivity].
Qed.

End VersionFacts.

(** ** Saved objects as relations, and in search results *)
Section Composition.
Import Models Validators Django Forms Relations.

(** X14. An object saved through the form of its entity can be selected
    afterwards: in the store after the save, every relation field whose
    queryset is that entity accepts the key of the new object.  So a
    saved VRF can be the VRF of a Bridge Domain, and a saved Bridge
    Domain the Bridge Domain of a subnet. *)
Theorem saved_object_selectable (c : ChoiceSets) (dc : char_class)
  (e : Entity) (st : Store) (data data' : QueryDict) (k : N) (f : Field)
  (qp ip : list (string * string)) :
  snd (save st (entity_form c dc e) data) = Saved k ->
  ftype f = DynamicModelChoiceField (ACI e) qp ip ->
  Py.parse_int (text_value data' (name f)) = Some k ->
  clean (fst (save st (entity_form c dc e) data)) f data'
    = Ok (CObj (ACI e) k).
Proof.
  intros Hs Ht Hk.
  destruct (save_cases st (entity_form c dc e) data)
    as [[_ Hsave] | [_ Hsave]]; rewrite Hsave in Hs |- *; simpl in Hs;
    [|discriminate].
  inversion Hs as [Hpk]. cbn [fst].
  set (o := new_instance st (entity_form c dc e) data) in *.
  assert (Hm : obj_model o = ACI e)
    by (simpl; now rewrite entity_form_model).
  assert (Hq : queryset_get (st ++ [o])%list (ACI e) (obj_pk o) = Some o).
  { rewrite <- Hm. apply queryset_get_new. reflexivity. }
  unfold clean. rewrite Ht.
  destruct (text_value data' (name f)) as [|ch rest] eqn:Hv;
    [discriminate Hk|].
  assert (Hpk' : obj_pk o = k) by exact Hpk.
  rewrite Hk. rewrite Hpk' in Hq. rewrite Hq. now rewrite Hpk.
Qed.

Lemma saved_object_selectable_witness :
  clean (fst (save sample_store
                (entity_form mentioned_choices printable_ascii ACIVRF)
                vrf_submission))
    ACIBridgeDomainForm.aci_vrf [("aci_vrf", Py.s "2")]
  = Ok (CObj (ACI ACIVRF) 2).
Proof.
  apply (saved_object_selectable mentioned_choices printable_ascii ACIVRF
           sample_store vrf_submission [("aci_vrf", Py.s "2")] 2
           ACIBridgeDomainForm.aci_vrf
           [("aci_tenant_id", "$aci_tenant")] []);
    reflexivity.
Defined.

(** X15. The attributes that a search index displays and that the form
    of its entity never stores: "alias" for the VRF, "nb_tenant" for the
    Bridge Domain, none for the subnet.  Whatever is submitted, an object
    saved through the form has no value for them. *)
Theorem displayed_attributes_not_stored (c : ChoiceSets) (dc : char_class)
  (st : Store) (data : QueryDict) :
  map (fun p => displayed_not_listed (fst p) (snd p))
      (network_indexes c dc) = [["alias"]; ["nb_tenant"]; []] /\
  Forall (fun p =>
            forall a, In a (displayed_not_listed (fst p) (snd p)) ->
                      attr (attrs (new_instance st (snd p) data)) a = None)
         (network_indexes c dc).
Proof.
  split; [reflexivity|].
  apply Forall_forall. intros [idx form] _ a Ha. cbn [fst snd] in *.
  unfold displayed_not_listed in Ha. apply filter_In in Ha.
  destruct Ha as [_ Hn]. apply negb_true_iff in Hn.
  destruct (attr _ _) as [v|] eqn:Hv; [|reflexivity].
  apply stored_attribute_listed, existsb_eqb_In in Hv. congruence.
Qed.

End Composition.


